(** * E-commerce recommendation engine: the recommendation pipeline

    A shallow embedding of [services/llm_service.py],
    [services/product_service.py] and of [filter_products] and the
    browsing history of [app.py], with the properties of the
    request/response pipeline (prompt construction, model invocation,
    response parsing and caching), of the catalog filter and of the
    history.

    Python values that come out of [json.load] are embedded as [pyval];
    a call that may raise returns a [result]; the service object and the
    remote model are threaded explicitly as a state. *)

From Stdlib Require Import ZArith QArith Ascii String List Bool Lia.
From stdpp Require Import base option list strings gmap fin_maps.

Set Warnings "-register-all".

Local Open Scope string_scope.
Local Open Scope Z_scope.

(** ** Python values, exceptions and the builtins the code uses *)

Module Py.

(** The double quote, the backslash and the line feed. *)
Definition dquote : ascii := Eval cbv in ascii_of_nat 34.
Definition backslash : ascii := Eval cbv in ascii_of_nat 92.
Definition newline : ascii := Eval cbv in ascii_of_nat 10.

(** A string literal of the source that holds double quotes is written
    here with apostrophes in their place; [dq] puts the quotes back. *)
Fixpoint dq (s : string) : string :=
  match s with
  | EmptyString => EmptyString
  | String a rest => String (if Ascii.eqb a "'"%char then dquote else a) (dq rest)
  end.

(** The exceptions the modelled code can raise. *)
Inductive exn : Type :=
  | AttributeError
  | KeyError
  | TypeError
  | JSONDecodeError
  | RuntimeError (msg : string).

(** The outcome of evaluating Python code: a value, or a raised exception. *)
Inductive result (A : Type) : Type :=
  | Ok (a : A)
  | Raise (e : exn).
Arguments Ok {A} a.
Arguments Raise {A} e.

#[export] Instance result_ret : MRet result := fun A a => Ok a.
#[export] Instance result_bind : MBind result := fun A B f m =>
  match m with
  | Ok a => f a
  | Raise e => Raise e
  end.

(** A Python [float]: not-a-number, an infinity, or a finite value, which is
    represented by the rational it denotes (rounding to binary64 is not
    part of the model). *)
Inductive pyfloat : Type :=
  | FNaN
  | FInf (negative : bool)
  | FFin (q : Q).

(** The values [json.load] produces.  A [dict] keeps its insertion order,
    which [json.dumps] writes out, so it is an association list; its keys
    are strings and are pairwise different. *)
Inductive pyval : Type :=
  | PNone
  | PBool (b : bool)
  | PInt (n : Z)
  | PFloat (f : pyfloat)
  | PStr (s : string)
  | PList (l : list pyval)
  | PDict (d : list (string * pyval)).

(** [d.get(k)] on the entries of a dict. *)
Fixpoint dict_get (d : list (string * pyval)) (k : string) : option pyval :=
  match d with
  | [] => None
  | (k', v) :: d' => if String.eqb k' k then Some v else dict_get d' k
  end.

(** [d[k] = v]: an existing key keeps its place, a new one goes last. *)
Fixpoint dict_set (d : list (string * pyval)) (k : string) (v : pyval)
  : list (string * pyval) :=
  match d with
  | [] => [(k, v)]
  | (k', v') :: d' =>
      if String.eqb k' k then (k, v) :: d' else (k', v') :: dict_set d' k v
  end.

(** The numeric value of [bool], [int] and [float] objects. *)
Definition as_number (v : pyval) : option pyfloat :=
  match v with
  | PBool b => Some (FFin (inject_Z (if b then 1 else 0)))
  | PInt n => Some (FFin (inject_Z n))
  | PFloat f => Some f
  | _ => None
  end.

Definition num_eqb (x y : pyfloat) : bool :=
  match x, y with
  | FFin p, FFin q => Qeq_bool p q
  | FInf a, FInf b => Bool.eqb a b
  | _, _ => false
  end.

(** [x < y] on numbers; every comparison with NaN is false. *)
Definition num_ltb (x y : pyfloat) : bool :=
  match x, y with
  | FNaN, _ | _, FNaN => false
  | FFin p, FFin q => negb (Qle_bool q p)
  | FFin _, FInf neg => negb neg
  | FInf neg, FFin _ => neg
  | FInf a, FInf b => a && negb b
  end.

(** [x <= y] on numbers. *)
Definition num_leb (x y : pyfloat) : bool :=
  match x, y with
  | FNaN, _ | _, FNaN => false
  | FFin p, FFin q => Qle_bool p q
  | FFin _, FInf neg => negb neg
  | FInf neg, FFin _ => neg
  | FInf a, FInf b => a || negb b
  end.

(** [a == b].  Numbers compare by value across [bool], [int] and [float];
    lists compare element by element; dicts compare as maps, whatever the
    order of their keys. *)
Fixpoint py_eq (a b : pyval) {struct a} : bool :=
  match a, b with
  | PNone, PNone => true
  | PStr s, PStr t => String.eqb s t
  | PList xs, PList ys =>
      (fix all2 (xs ys : list pyval) {struct xs} : bool :=
         match xs, ys with
         | [], [] => true
         | x :: xs', y :: ys' => py_eq x y && all2 xs' ys'
         | _, _ => false
         end) xs ys
  | PDict d, PDict e =>
      Nat.eqb (length d) (length e) &&
      (fix all (d : list (string * pyval)) : bool :=
         match d with
         | [] => true
         | (k, v) :: d' =>
             match dict_get e k with
             | Some w => py_eq v w
             | None => false
             end && all d'
         end) d
  | (PBool _ | PInt _ | PFloat _), (PBool _ | PInt _ | PFloat _) =>
      match as_number a, as_number b with
      | Some x, Some y => num_eqb x y
      | _, _ => false
      end
  | _, _ => false
  end.

(** Truth value of an object, as [if x:] tests it. *)
Definition truthy (v : pyval) : bool :=
  match v with
  | PNone => false
  | PBool b => b
  | PInt n => negb (n =? 0)
  | PFloat (FFin q) => negb (Qeq_bool q 0)
  | PFloat _ => true
  | PStr s => negb (String.eqb s EmptyString)
  | PList l => negb (Nat.eqb (length l) 0)
  | PDict d => negb (Nat.eqb (length d) 0)
  end.

(** [x.get(k, default)]: only a dict has the method. *)
Definition get (x : pyval) (k : string) (default : pyval) : result pyval :=
  match x with
  | PDict d => Ok (match dict_get d k with Some v => v | None => default end)
  | _ => Raise AttributeError
  end.

(** [x[k]] with a string key: a missing key raises [KeyError], and a value
    that is not a dict cannot be indexed by a string. *)
Definition subscript (x : pyval) (k : string) : result pyval :=
  match x with
  | PDict d =>
      match dict_get d k with
      | Some v => Ok v
      | None => Raise KeyError
      end
  | _ => Raise TypeError
  end.

(** [a < b] and [a <= b] where one operand is an [int] literal, as in
    [filter_products]: the other operand must be a number. *)
Definition py_lt (a b : pyval) : result bool :=
  match as_number a, as_number b with
  | Some x, Some y => Ok (num_ltb x y)
  | _, _ => Raise TypeError
  end.

Definition py_le (a b : pyval) : result bool :=
  match as_number a, as_number b with
  | Some x, Some y => Ok (num_leb x y)
  | _, _ => Raise TypeError
  end.

(** A value that can be hashed, hence looked up as a dict key. *)
Definition hashable (x : pyval) : bool :=
  match x with
  | PList _ | PDict _ => false
  | _ => true
  end.

(** [needle in haystack] on strings: [needle] occurs as a substring. *)
Fixpoint str_contains (needle haystack : string) : bool :=
  String.prefix needle haystack ||
  match haystack with
  | EmptyString => false
  | String _ rest => str_contains needle rest
  end.

(** [x in c].  A list is searched with [==]; a string takes only a string
    on the left; a dict is searched by key; anything else is not a
    container.  (The identity test that comes before [==] is not modelled:
    it matters for NaN only.) *)
Definition contains (c x : pyval) : result bool :=
  match c with
  | PList l => Ok (existsb (py_eq x) l)
  | PStr s =>
      match x with
      | PStr t => Ok (str_contains t s)
      | _ => Raise TypeError
      end
  | PDict d =>
      if hashable x then
        Ok (match x with
            | PStr k => bool_decide (is_Some (dict_get d k))
            | _ => false
            end)
      else Raise TypeError
  | _ => Raise TypeError
  end.

(** [s.find(c)] and [s.rfind(c)] for a one-character [c]: the index of the
    first and of the last occurrence, or -1. *)
Fixpoint str_find (s : string) (c : ascii) : Z :=
  match s with
  | EmptyString => -1
  | String a rest =>
      if Ascii.eqb a c then 0
      else let i := str_find rest c in if i =? -1 then -1 else i + 1
  end.

Fixpoint str_rfind (s : string) (c : ascii) : Z :=
  match s with
  | EmptyString => -1
  | String a rest =>
      let i := str_rfind rest c in
      if i =? -1 then (if Ascii.eqb a c then 0 else -1) else i + 1
  end.

(** [s[lo:hi]] for indices that are not negative. *)
Definition slice (s : string) (lo hi : Z) : string :=
  String.substring (Z.to_nat lo) (Z.to_nat (hi - lo)) s.

(** White space as [str.strip] sees it, among the ASCII characters (the
    prompt has no others: [json.dumps] escapes them). *)
Definition is_space (a : ascii) : bool :=
  let n := nat_of_ascii a in
  ((9 <=? n) && (n <=? 13) || (28 <=? n) && (n <=? 32))%nat.

Fixpoint lstrip (s : string) : string :=
  match s with
  | String a rest => if is_space a then lstrip rest else s
  | EmptyString => EmptyString
  end.

(** [s.rstrip()]: a character stays when something that stays follows it,
    or when it is not white space. *)
Fixpoint rstrip (s : string) : string :=
  match s with
  | EmptyString => EmptyString
  | String a rest =>
      match rstrip rest with
      | EmptyString => if is_space a then EmptyString else String a EmptyString
      | kept => String a kept
      end
  end.

(** [s.strip()]. *)
Definition strip (s : string) : string := rstrip (lstrip s).

End Py.

(** ** The [json] module: [json.loads]

    The decoder of CPython on the UTF-8 bytes of the text: white space,
    the constants, numbers, strings with their escapes, arrays and
    objects, and nothing after the value.  A [float] literal denotes its
    decimal value.  The limits of the interpreter (depth of nesting, number
    of digits of an [int]) are not part of the model. *)

Module Json.
Import Py.

(** The outcome of decoding: a value, a [JSONDecodeError], or a decoder
    that ran out of fuel (which [loads_total] excludes). *)
Inductive decoded (A : Type) : Type :=
  | Dec (a : A)
  | Bad
  | OutOfFuel.
Arguments Dec {A} a.
Arguments Bad {A}.
Arguments OutOfFuel {A}.

#[export] Instance decoded_ret : MRet decoded := fun A a => Dec a.
#[export] Instance decoded_bind : MBind decoded := fun A B f m =>
  match m with
  | Dec a => f a
  | Bad => Bad
  | OutOfFuel => OutOfFuel
  end.

(** White space between tokens: space, tab, line feed, carriage return. *)
Definition is_ws (a : ascii) : bool :=
  match a with
  | " "%char | "009"%char | "010"%char | "013"%char => true
  | _ => false
  end.

Fixpoint skip_ws (s : string) : string :=
  match s with
  | String a rest => if is_ws a then skip_ws rest else s
  | EmptyString => EmptyString
  end.

(** [s] without its prefix [p], when it starts with [p]. *)
Fixpoint strip_prefix (p s : string) : option string :=
  match p, s with
  | EmptyString, _ => Some s
  | String a p', String b s' =>
      if Ascii.eqb a b then strip_prefix p' s' else None
  | String _ _, EmptyString => None
  end.

Definition digit_val (a : ascii) : option Z :=
  let n := Z.of_nat (nat_of_ascii a) in
  if (48 <=? n) && (n <=? 57) then Some (n - 48) else None.

Definition hex_val (a : ascii) : option Z :=
  let n := Z.of_nat (nat_of_ascii a) in
  if (48 <=? n) && (n <=? 57) then Some (n - 48)
  else if (65 <=? n) && (n <=? 70) then Some (n - 55)
  else if (97 <=? n) && (n <=? 102) then Some (n - 87)
  else None.

(** The longest run of decimal digits at the start of [s]: its value
    after [acc], how many digits it has, and what follows it. *)
Fixpoint span_digits (acc : Z) (count : nat) (s : string) : Z * nat * string :=
  match s with
  | String a rest =>
      match digit_val a with
      | Some d => span_digits (10 * acc + d) (S count) rest
      | None => (acc, count, s)
      end
  | EmptyString => (acc, count, s)
  end.

(** Four hexadecimal digits. *)
Definition hex4 (s : string) : option (Z * string) :=
  match s with
  | String a (String b (String c (String d rest))) =>
      match hex_val a, hex_val b, hex_val c, hex_val d with
      | Some x, Some y, Some z, Some w =>
          Some (((x * 16 + y) * 16 + z) * 16 + w, rest)
      | _, _, _, _ => None
      end
  | _ => None
  end.

Definition byte (n : Z) : ascii := ascii_of_nat (Z.to_nat n).

(** A code point as the bytes of its UTF-8 encoding (a lone surrogate is
    written with the three-byte pattern too). *)
Definition utf8 (cp : Z) (tail : string) : string :=
  if cp <? 128 then String (byte cp) tail
  else if cp <? 2048 then
    String (byte (192 + cp / 64)) (String (byte (128 + cp mod 64)) tail)
  else if cp <? 65536 then
    String (byte (224 + cp / 4096))
      (String (byte (128 + (cp / 64) mod 64))
         (String (byte (128 + cp mod 64)) tail))
  else
    String (byte (240 + cp / 262144))
      (String (byte (128 + (cp / 4096) mod 64))
         (String (byte (128 + (cp / 64) mod 64))
            (String (byte (128 + cp mod 64)) tail))).

(** After a [\uXXXX] escape that gave [cp]: a high surrogate followed by
    the escape of a low surrogate joins it into one code point. *)
Definition join_surrogate (cp : Z) (s : string) : decoded (Z * string) :=
  if (55296 <=? cp) && (cp <=? 56319) then
    match s with
    | String b (String "u"%char rest) =>
        if Ascii.eqb b backslash then
          match hex4 rest with
          | Some (lo, rest') =>
              if (56320 <=? lo) && (lo <=? 57343)
              then Dec (65536 + (cp - 55296) * 1024 + (lo - 56320), rest')
              else Dec (cp, s)
          | None => Bad
          end
        else Dec (cp, s)
    | _ => Dec (cp, s)
    end
  else Dec (cp, s).

(** The body of a string literal, after its opening quote: the decoded
    text and what follows the closing quote.  The recursion follows the
    input, [skip] counting the characters of an escape still to pass. *)
Fixpoint scanstring_from (skip : nat) (s : string) : decoded (string * string) :=
  match s with
  | EmptyString => Bad
  | String a rest =>
      match skip with
      | S k => scanstring_from k rest
      | O =>
          if Ascii.eqb a dquote then Dec (EmptyString, rest)
          else if Ascii.eqb a backslash then
            match rest with
            | String e rest' =>
                let plain (c : ascii) :=
                  '(t, r) ← scanstring_from 1 rest; Dec (String c t, r) in
                if Ascii.eqb e dquote then plain dquote
                else if Ascii.eqb e backslash then plain backslash
                else
                  match e with
                  | "/"%char => plain "/"%char
                  | "b"%char => plain "008"%char
                  | "f"%char => plain "012"%char
                  | "n"%char => plain "010"%char
                  | "r"%char => plain "013"%char
                  | "t"%char => plain "009"%char
                  | "u"%char =>
                      match hex4 rest' with
                      | Some (cp, after) =>
                          '(cp', after') ← join_surrogate cp after;
                          '(t, r) ← scanstring_from
                                      (String.length rest - String.length after')
                                      rest;
                          Dec (utf8 cp' t, r)
                      | None => Bad
                      end
                  | _ => Bad
                  end
            | EmptyString => Bad
            end
          else if (nat_of_ascii a <? 32)%nat then Bad
          else '(t, r) ← scanstring_from 0 rest; Dec (String a t, r)
      end
  end.

Definition scanstring (s : string) : decoded (string * string) :=
  scanstring_from 0 s.

(** 10 to the power [n]. *)
Definition pow10 (n : Z) : Z := 10 ^ n.

(** [s] without its first character, when that is [c]. *)
Definition take_char (c : ascii) (s : string) : option string :=
  match s with
  | String a rest => if Ascii.eqb a c then Some rest else None
  | EmptyString => None
  end.

(** The integer part of a number literal: a zero, or digits that do not
    start with a zero. *)
Definition scan_int (s : string) : option (Z * string) :=
  match s with
  | String a rest =>
      if Ascii.eqb a "0"%char then Some (0, rest)
      else
        match digit_val a with
        | Some _ => let '(n, _, r) := span_digits 0 0 s in Some (n, r)
        | None => None
        end
  | EmptyString => None
  end.

(** The fraction of a number literal, a dot and at least one digit: the
    digits of the literal so far with those of the fraction after them,
    and the number of digits of the fraction. *)
Definition scan_frac (n : Z) (s : string) : option (Z * nat * string) :=
  match take_char "."%char s with
  | Some r =>
      match span_digits n 0 r with
      | (_, O, _) => None
      | (m, k, r') => Some (m, k, r')
      end
  | None => None
  end.

(** The exponent of a number literal: [e] or [E], an optional sign and at
    least one digit. *)
Definition scan_exp (s : string) : option (Z * string) :=
  match s with
  | String e r =>
      if Ascii.eqb e "e"%char || Ascii.eqb e "E"%char then
        let '(eneg, r1) :=
          match take_char "-"%char r, take_char "+"%char r with
          | Some r', _ => (true, r')
          | None, Some r' => (false, r')
          | None, None => (false, r)
          end in
        match span_digits 0 0 r1 with
        | (_, O, _) => None
        | (x, _, r2) => Some ((if eneg : bool then - x else x), r2)
        end
      else None
  | EmptyString => None
  end.

(** The value of the decimal literal with the digits [mant], [scale] of
    them after the dot, and the exponent [expo]. *)
Definition decimal (mant : Z) (scale : nat) (expo : Z) : Q :=
  let e10 := expo - Z.of_nat scale in
  if 0 <=? e10
  then inject_Z (mant * pow10 e10)
  else Qmake mant (Z.to_pos (pow10 (- e10))).

(** A number literal: an optional minus sign, the integer part, an
    optional fraction and an optional exponent.  Without fraction and
    exponent it is an [int], else a [float]. *)
Definition match_number (s : string) : decoded (pyval * string) :=
  let '(neg, s1) :=
    match take_char "-"%char s with
    | Some r => (true, r)
    | None => (false, s)
    end in
  let sgn (z : Z) := if neg : bool then - z else z in
  match scan_int s1 with
  | None => Bad
  | Some (n, s2) =>
      match scan_frac n s2 with
      | Some (mant, scale, s3) =>
          match scan_exp s3 with
          | Some (expo, s4) => Dec (PFloat (FFin (decimal (sgn mant) scale expo)), s4)
          | None => Dec (PFloat (FFin (decimal (sgn mant) scale 0)), s3)
          end
      | None =>
          match scan_exp s2 with
          | Some (expo, s4) => Dec (PFloat (FFin (decimal (sgn n) 0 expo)), s4)
          | None => Dec (PInt (sgn n), s2)
          end
      end
  end.

(** [dict(pairs)] in the order the pairs were read. *)
Definition dict_of_pairs (pairs : list (string * pyval)) : list (string * pyval) :=
  fold_left (fun d kv => dict_set d (fst kv) (snd kv)) pairs [].

(** The constants [null], [true], [false], [NaN], [Infinity] and
    [-Infinity]. *)
Definition scan_constant (s : string) : option (pyval * string) :=
  match strip_prefix "null" s with
  | Some r => Some (PNone, r)
  | None =>
  match strip_prefix "true" s with
  | Some r => Some (PBool true, r)
  | None =>
  match strip_prefix "false" s with
  | Some r => Some (PBool false, r)
  | None =>
  match strip_prefix "NaN" s with
  | Some r => Some (PFloat FNaN, r)
  | None =>
  match strip_prefix "Infinity" s with
  | Some r => Some (PFloat (FInf false), r)
  | None =>
  match strip_prefix "-Infinity" s with
  | Some r => Some (PFloat (FInf true), r)
  | None => None
  end end end end end end.

(** One value at the start of [s], and what follows it ([scan_once]);
    [scan_elems] reads the elements of an array after its first bracket
    and [scan_members] the members of an object. *)
Fixpoint scan_once (fuel : nat) (s : string) {struct fuel}
  : decoded (pyval * string) :=
  match fuel with
  | O => OutOfFuel
  | S fuel' =>
      match take_char dquote s with
      | Some rest => '(t, r) ← scanstring rest; Dec (PStr t, r)
      | None =>
      match take_char "["%char s with
      | Some rest =>
          match take_char "]"%char (skip_ws rest) with
          | Some r => Dec (PList [], r)
          | None =>
              '(vs, r) ← scan_elems fuel' (skip_ws rest); Dec (PList vs, r)
          end
      | None =>
      match take_char "{"%char s with
      | Some rest =>
          match take_char "}"%char (skip_ws rest) with
          | Some r => Dec (PDict [], r)
          | None =>
              '(kvs, r) ← scan_members fuel' (skip_ws rest);
              Dec (PDict (dict_of_pairs kvs), r)
          end
      | None =>
      match scan_constant s with
      | Some (v, r) => Dec (v, r)
      | None => match_number s
      end end end end
  end
with scan_elems (fuel : nat) (s : string) {struct fuel}
  : decoded (list pyval * string) :=
  match fuel with
  | O => OutOfFuel
  | S fuel' =>
      '(v, r) ← scan_once fuel' s;
      match take_char "]"%char (skip_ws r) with
      | Some r' => Dec ([v], r')
      | None =>
          match take_char ","%char (skip_ws r) with
          | Some r' =>
              '(vs, r'') ← scan_elems fuel' (skip_ws r'); Dec (v :: vs, r'')
          | None => Bad
          end
      end
  end
with scan_members (fuel : nat) (s : string) {struct fuel}
  : decoded (list (string * pyval) * string) :=
  match fuel with
  | O => OutOfFuel
  | S fuel' =>
      match take_char dquote s with
      | Some rest =>
          '(k, r) ← scanstring rest;
          match take_char ":"%char (skip_ws r) with
          | Some r1 =>
              '(v, r2) ← scan_once fuel' (skip_ws r1);
              match take_char "}"%char (skip_ws r2) with
              | Some r' => Dec ([(k, v)], r')
              | None =>
                  match take_char ","%char (skip_ws r2) with
                  | Some r' =>
                      '(kvs, r'') ← scan_members fuel' (skip_ws r');
                      Dec ((k, v) :: kvs, r'')
                  | None => Bad
                  end
              end
          | None => Bad
          end
      | None => Bad
      end
  end.

(** Two units of fuel for each character are enough ([loads_total]). *)
Definition fuel_for (s : string) : nat := 2 * String.length s + 2.

(** [json.loads(s)]: one value between optional white space, and nothing
    after it. *)
Definition decode (s : string) : decoded pyval :=
  let s0 := skip_ws s in
  '(v, r) ← scan_once (fuel_for s0) s0;
  match skip_ws r with
  | EmptyString => Dec v
  | _ => Bad
  end.

Definition loads (s : string) : result pyval :=
  match decode s with
  | Dec v => Ok v
  | _ => Raise JSONDecodeError
  end.

End Json.

(** ** [services/llm_service.py] *)

Module LLMService.
Import Py.

(** One element of the ["recommendations"] list: the dict with the keys
    [product], [explanation] and [confidence_score]. *)
Record Recommendation : Type := {
  product : pyval;
  explanation : pyval;
  confidence_score : pyval
}.

(** The dict [generate_recommendations] returns; the key ["error"] is
    present or absent. *)
Record RecommendationResult : Type := {
  recommendations : list Recommendation;
  count : Z;
  error : option string
}.

(** The [input] of [replicate.run]. *)
Record run_input : Type := {
  prompt : string;
  max_new_tokens : Z;
  prompt_template : string
}.

(** What iterating over [replicate.run(..., stream=True)] does: it yields
    the chunks of the text, or it raises at some point, with a message. *)
Inductive stream_outcome : Type :=
  | Chunks (chunks : list string)
  | Fails (cause : string).

(** The service object: its [cache] attribute. *)
Record LLMService : Type := { cache : gmap string RecommendationResult }.

(** The remote service, as far as the code can observe it: the inputs of
    the calls to [replicate.run] issued so far. *)
Record World : Type := { issued : list run_input }.

(** [LLMService()]. *)
Definition __init__ : LLMService := {| cache := ∅ |}.

(** [str(e)]; only a [RuntimeError] reaches it. *)
Definition exn_str (e : exn) : string :=
  match e with
  | RuntimeError msg => msg
  | _ => EmptyString
  end.

Definition nl : string := String newline EmptyString.

(** [next((p for p in products if p["id"] == pid), None)] *)
Fixpoint next_product (products : list pyval) (pid : pyval) : result pyval :=
  match products with
  | [] => Ok PNone
  | p :: rest =>
      id ← subscript p "id";
      if py_eq id pid then Ok p else next_product rest pid
  end.

(** The body of the loop [for item in parsed]. *)
Definition parse_item (products : list pyval) (item : pyval)
    (recommendations : list Recommendation) : result (list Recommendation) :=
  pid ← get item "id" PNone;
  explanation ← get item "explanation" (PStr EmptyString);
  score ← get item "confidence_score" (PInt 5);
  product_data ← next_product products pid;
  if truthy product_data then
    Ok (recommendations ++
          [{| product := product_data;
              explanation := explanation;
              confidence_score := score |}])%list
  else Ok recommendations.

Fixpoint parse_items (products parsed : list pyval)
    (recommendations : list Recommendation) : result (list Recommendation) :=
  match parsed with
  | [] => Ok recommendations
  | item :: rest =>
      recommendations' ← parse_item products item recommendations;
      parse_items products rest recommendations'
  end.

Definition _parse_recommendation_response (raw_text : string)
    (products : list pyval) : result (list Recommendation) :=
  let recommendations : list Recommendation := [] in
  let start := str_find raw_text "["%char in
  let end_ := str_rfind raw_text "]"%char in
  if (start =? -1) || (end_ =? -1) then Ok recommendations
  else
    let json_text := slice raw_text start (end_ + 1) in
    match Json.loads json_text with
    | Raise JSONDecodeError => Ok recommendations
    | Raise e => Raise e
    | Ok (PList parsed) => parse_items products parsed recommendations
    | Ok _ => Ok recommendations
    end.

(** *** Notions the properties of the parser are stated with *)

Definition is_dict (v : pyval) : bool :=
  match v with
  | PDict _ => true
  | _ => false
  end.

(** [p["id"]] evaluates, that is, [p] is a dict with the key ["id"]. *)
Definition has_id (p : pyval) : bool :=
  match subscript p "id" with
  | Ok _ => true
  | Raise _ => false
  end.

(** [p["id"] == pid] evaluates to true. *)
Definition id_is (pid p : pyval) : bool :=
  match subscript p "id" with
  | Ok id => py_eq id pid
  | Raise _ => false
  end.

(** [item.get(k, default)] of an array element that is an object. *)
Definition field (item : pyval) (k : string) (default : pyval) : pyval :=
  match item with
  | PDict d => match dict_get d k with Some v => v | None => default end
  | _ => default
  end.

(** The first product in catalog order whose id is [pid]. *)
Definition resolve (products : list pyval) (pid : pyval) : option pyval :=
  List.find (id_is pid) products.

(** The recommendation an array element stands for, when its id resolves. *)
Definition recommend (products : list pyval) (item : pyval)
  : option Recommendation :=
  match resolve products (field item "id" PNone) with
  | Some p =>
      Some {| product := p;
              explanation := field item "explanation" (PStr EmptyString);
              confidence_score := field item "confidence_score" (PInt 5) |}
  | None => None
  end.

(** The text between the first opening and the last closing bracket of
    [raw_text] decodes to the array [parsed]. *)
Definition carries_array (raw_text : string) (parsed : list pyval) : Prop :=
  str_find raw_text "["%char ≠ -1 ∧
  str_rfind raw_text "]"%char ≠ -1 ∧
  Json.loads (slice raw_text (str_find raw_text "["%char)
                (str_rfind raw_text "]"%char + 1)) = Ok (PList parsed).

(** A success value: no ["error"] key, and [count] is the length of the
    list.  A failure value: an ["error"] key, an empty list, a zero count. *)
Definition is_success (r : RecommendationResult) : Prop :=
  error r = None ∧ count r = Z.of_nat (length (recommendations r)).

Definition is_failure (r : RecommendationResult) : Prop :=
  (∃ msg, error r = Some msg) ∧ recommendations r = [] ∧ count r = 0.

Section Pipeline.

(** [json.dumps(x, indent=2)], [hashlib.md5(s.encode('utf-8')).hexdigest()]
    and the remote model, whose answer may depend on the calls issued
    before. *)
Variable json_dumps : pyval -> string.
Variable md5_hexdigest : string -> string.
Variable replicate_run : list run_input -> run_input -> stream_outcome.

Definition _create_recommendation_prompt (preferences browsing_history : pyval)
    (products : list pyval) : string :=
  let sample_products := firstn 5 products in
  let prompt :=
    "User Preferences:" ++ nl ++ json_dumps preferences ++ nl ++ nl ++
    "Browsing History:" ++ nl ++ json_dumps browsing_history ++ nl ++ nl ++
    "Available Products (sample):" ++ nl ++
    json_dumps (PList sample_products) ++ nl ++ nl ++
    "Please recommend between 3 to 5 products that best match these preferences and browsing history. " ++
    "For each recommendation, provide the product ID, a brief explanation, and a confidence score (1-10). " ++
    "Output only valid JSON in the following format:" ++ nl ++
    dq "[{'id': 'prodXYZ', 'explanation': 'Because...', 'confidence_score': 8}, ...]"
  in
  strip prompt.

(** The dict [input_data] of [_call_llm]. *)
Definition input_data (prompt : string) (max_new_tokens : Z) : run_input :=
  {| prompt := prompt;
     max_new_tokens := max_new_tokens;
     prompt_template :=
       "<|begin_of_text|><|start_header_id|>system<|end_header_id|>" ++ nl ++ nl ++
       "{system_prompt}<|eot_id|><|start_header_id|>user<|end_header_id|>" ++ nl ++ nl ++
       "{prompt}<|eot_id|><|start_header_id|>assistant<|end_header_id|>" ++ nl ++ nl |}.

Definition _call_llm (w : World) (prompt : string) (max_new_tokens : Z)
  : result string * World :=
  let input_data := input_data prompt max_new_tokens in
  let w' := {| issued := issued w ++ [input_data] |} in
  match replicate_run (issued w) input_data with
  | Chunks chunks =>
      (Ok (fold_left String.append chunks EmptyString), w')
  | Fails cause =>
      (Raise (RuntimeError ("Error calling Replicate model: " ++ cause)), w')
  end.

Definition generate_recommendations (self : LLMService) (w : World)
    (preferences browsing_history : pyval) (products : list pyval)
  : result RecommendationResult * LLMService * World :=
  let prompt := _create_recommendation_prompt preferences browsing_history products in
  let key := md5_hexdigest prompt in
  match cache self !! key with
  | Some cached => (Ok cached, self, w)
  | None =>
      match _call_llm w prompt 512 with
      | (Raise e, w') =>
          (Ok {| recommendations := []; count := 0; error := Some (exn_str e) |},
           self, w')
      | (Ok raw_output, w') =>
          match _parse_recommendation_response raw_output products with
          | Raise e => (Raise e, self, w')
          | Ok recommendations =>
              let result :=
                {| recommendations := recommendations;
                   count := Z.of_nat (length recommendations);
                   error := None |} in
              (Ok result, {| cache := <[key := result]> (cache self) |}, w')
          end
      end
  end.

(** The states a service object and the remote service can be in: the
    object is created with an empty cache, and only
    [generate_recommendations] touches it. *)
Inductive reachable : LLMService → World → Prop :=
  | reach_init (w : World) : reachable __init__ w
  | reach_call (self : LLMService) (w : World)
      (preferences browsing_history : pyval) (products : list pyval)
      (res : result RecommendationResult) (self' : LLMService) (w' : World) :
      reachable self w →
      generate_recommendations self w preferences browsing_history products
        = (res, self', w') →
      reachable self' w'.

End Pipeline.

End LLMService.

(** ** [services/product_service.py] *)

Module ProductService.
Import Py.

Record ProductService : Type := {
  data_path : string;
  products : list pyval
}.

Definition get_all_products (self : ProductService) : list pyval :=
  products self.

(** The loop of [get_product_by_id] over [self.products]. *)
Fixpoint first_with_id (products : list pyval) (product_id : pyval)
  : result pyval :=
  match products with
  | [] => Ok PNone
  | product :: rest =>
      id ← get product "id" PNone;
      if py_eq id product_id then Ok product
      else first_with_id rest product_id
  end.

Definition get_product_by_id (self : ProductService) (product_id : pyval)
  : result pyval :=
  first_with_id (products self) product_id.

(** [product.get("id") == product_id] evaluates to true. *)
Definition get_id_is (product_id product : pyval) : bool :=
  match get product "id" PNone with
  | Ok id => py_eq id product_id
  | Raise _ => false
  end.

End ProductService.

(** ** [app.py]: [filter_products] *)

Module App.
Import Py.

(** The list comprehension [[p for p in l if test p]]. *)
Fixpoint comprehension (test : pyval -> result bool) (l : list pyval)
  : result (list pyval) :=
  match l with
  | [] => Ok []
  | p :: rest =>
      keep ← test p;
      kept ← comprehension test rest;
      Ok (if keep : bool then p :: kept else kept)
  end.

Definition filter_products (products : list pyval) (preferences : pyval)
  : result (list pyval) :=
  let filtered := products in
  price_range ← get preferences "priceRange" (PStr "all");
  filtered ←
    (if negb (py_eq price_range (PStr "all")) then
       if py_eq price_range (PStr "0-50") then
         comprehension
           (fun p => price ← get p "price" (PInt 0); py_le price (PInt 50))
           filtered
       else if py_eq price_range (PStr "50-100") then
         comprehension
           (fun p =>
              price ← get p "price" (PInt 0);
              above ← py_lt (PInt 50) price;
              if above : bool then py_le price (PInt 100) else Ok false)
           filtered
       else if py_eq price_range (PStr "100+") then
         comprehension
           (fun p => price ← get p "price" (PInt 0); py_lt (PInt 100) price)
           filtered
       else Ok filtered
     else Ok filtered);
  selected_categories ← get preferences "categories" (PList []);
  filtered ←
    (if truthy selected_categories then
       comprehension
         (fun p =>
            category ← get p "category" PNone;
            contains selected_categories category)
         filtered
     else Ok filtered);
  selected_brands ← get preferences "brands" (PList []);
  filtered ←
    (if truthy selected_brands then
       comprehension
         (fun p =>
            brand ← get p "brand" PNone;
            contains selected_brands brand)
         filtered
     else Ok filtered);
  Ok filtered.

(** The price of a product as [filter_products] reads it, when it is an
    [int]: a product without price counts as priced 0. *)
Definition int_price (p : pyval) : option Z :=
  match p with
  | PDict d =>
      match dict_get d "price" with
      | Some (PInt n) => Some n
      | Some _ => None
      | None => Some 0
      end
  | _ => None
  end.

(** A price above 50 and of 100 at most. *)
Definition in_band_50_100 (p : pyval) : bool :=
  match int_price p with
  | Some n => (50 <? n) && (n <=? 100)
  | None => false
  end.

(** *** The three filters of [filter_products], one at a time *)

(** The filter by price range. *)
Definition price_stage (price_range : pyval) (filtered : list pyval)
  : result (list pyval) :=
  if negb (py_eq price_range (PStr "all")) then
    if py_eq price_range (PStr "0-50") then
      comprehension
        (fun p => price ← get p "price" (PInt 0); py_le price (PInt 50))
        filtered
    else if py_eq price_range (PStr "50-100") then
      comprehension
        (fun p =>
           price ← get p "price" (PInt 0);
           above ← py_lt (PInt 50) price;
           if above : bool then py_le price (PInt 100) else Ok false)
        filtered
    else if py_eq price_range (PStr "100+") then
      comprehension
        (fun p => price ← get p "price" (PInt 0); py_lt (PInt 100) price)
        filtered
    else Ok filtered
  else Ok filtered.

(** The filter by the selected values of the key [key], which is
    ["category"] or ["brand"]. *)
Definition select_stage (key : string) (selected : pyval)
    (filtered : list pyval) : result (list pyval) :=
  if truthy selected then
    comprehension
      (fun p => value ← get p key PNone; contains selected value)
      filtered
  else Ok filtered.

(** A function on lists that keeps a part of its argument, in order, and
    keeps all of what it has kept once. *)
Definition filter_like (stage : list pyval → result (list pyval)) : Prop :=
  ∀ l r, stage l = Ok r →
         sublist r l ∧ ∀ r', sublist r' r → stage r' = Ok r'.

(** Preferences that select a price range and nothing else. *)
Definition band_only (range : string) : pyval :=
  PDict [("priceRange", PStr range);
         ("categories", PList []);
         ("brands", PList [])].

(** The prices of the ranges 0-50 and 100+. *)
Definition low_price (p : pyval) : bool :=
  match int_price p with
  | Some n => n <=? 50
  | None => false
  end.

Definition high_price (p : pyval) : bool :=
  match int_price p with
  | Some n => 100 <? n
  | None => false
  end.


(** *** The browsing history *)

(** What a click on the button "View" of [product] does to the list
    [browsing_history]: the id is appended when it is not in the list; the
    message that follows reads the name of the product. *)
Definition on_view (browsing_history : list pyval) (product : pyval)
  : result unit * list pyval :=
  match subscript product "id" with
  | Raise e => (Raise e, browsing_history)
  | Ok id =>
      let browsing_history' :=
        if negb (existsb (py_eq id) browsing_history)
        then (browsing_history ++ [id])%list
        else browsing_history in
      match subscript product "name" with
      | Raise e => (Raise e, browsing_history')
      | Ok _ => (Ok tt, browsing_history')
      end
  end.

(** [[p for p in all_products if p["id"] in browsing_history]] *)
Definition history_products (all_products browsing_history : list pyval)
  : result (list pyval) :=
  comprehension
    (fun p => id ← subscript p "id"; contains (PList browsing_history) id)
    all_products.

(** No entry of the history is equal to an earlier one. *)
Fixpoint no_repeat (history : list pyval) : bool :=
  match history with
  | [] => true
  | x :: rest => negb (existsb (fun y => py_eq y x) rest) && no_repeat rest
  end.

End App.

(** ** Sample data *)

Module Samples.
Import Py LLMService.

(** The catalog, the preferences and the history of the test at the end
    of [llm_service.py]. *)
Definition prod001 : pyval :=
  PDict [("id", PStr "prod001");
         ("name", PStr "Ultra-Comfort Running Shoes");
         ("category", PStr "Footwear");
         ("price", PFloat (FFin (8999 # 100)));
         ("brand", PStr "SportsFlex");
         ("tags", PList [PStr "running"; PStr "athletic";
                         PStr "comfortable"; PStr "lightweight"])].

Definition sample_products : list pyval := [prod001].

Definition sample_preferences : pyval :=
  PDict [("priceRange", PStr "all");
         ("categories", PList [PStr "Footwear"]);
         ("brands", PList [])].

Definition sample_history : pyval := PList [PStr "prod001"].

(** A second record with the id of the first, and a record with another id. *)
Definition prod001_again : pyval :=
  PDict [("id", PStr "prod001"); ("name", PStr "Trail Running Shoes");
         ("category", PStr "Footwear"); ("price", PInt 120);
         ("brand", PStr "SportsFlex")].

Definition prod002 : pyval :=
  PDict [("id", PStr "prod002"); ("name", PStr "Rain Jacket");
         ("category", PStr "Outerwear"); ("price", PInt 60);
         ("brand", PStr "NorthPeak")].

(** A model answer with prose around the array. *)
Definition picks_text : string :=
  dq "Sure! Here are my picks: [{'id':'prod001','explanation':'Matches running preference','confidence_score':8}] Hope this helps!".

(** An answer that names a product the catalog has and one it has not. *)
Definition known_and_unknown : list pyval :=
  [PDict [("id", PStr "prod001"); ("explanation", PStr "Good fit")];
   PDict [("id", PStr "prod999"); ("confidence_score", PInt 9)]].

Definition known_and_unknown_text : string :=
  dq "I suggest [{'id': 'prod001', 'explanation': 'Good fit'}, {'id': 'prod999', 'confidence_score': 9}].".

(** An answer that names two products against the order of the catalog,
    the lower score first. *)
Definition reversed_text : string :=
  dq "[{'id': 'prod002', 'confidence_score': 3}, {'id': 'prod001', 'confidence_score': 9}]".

Definition reversed_array : list pyval :=
  [PDict [("id", PStr "prod002"); ("confidence_score", PInt 3)];
   PDict [("id", PStr "prod001"); ("confidence_score", PInt 9)]].

Definition reversed_recommendations : list Recommendation :=
  [{| product := prod002;
      explanation := PStr EmptyString;
      confidence_score := PInt 3 |};
   {| product := prod001;
      explanation := PStr EmptyString;
      confidence_score := PInt 9 |}].

(** A model that answers with an array of a number. *)
Definition answer_number (_ : list run_input) (_ : run_input)
  : stream_outcome :=
  Chunks ["[1]"].

(** Three Footwear products with the prices 40, 60 and 120. *)
Definition shoe (id : string) (price : Z) : pyval :=
  PDict [("id", PStr id); ("name", PStr "Shoe");
         ("category", PStr "Footwear"); ("price", PInt price);
         ("brand", PStr "SportsFlex")].

Definition footwear_preferences : pyval :=
  PDict [("priceRange", PStr "50-100");
         ("categories", PList [PStr "Footwear"]);
         ("brands", PList [])].

(** The same price band, with no category and no brand selected. *)
Definition band_preferences : pyval :=
  PDict [("priceRange", PStr "50-100");
         ("categories", PList []);
         ("brands", PList [])].

(** Stand-ins for the library functions and for the remote model: a
    serializer that writes the kind of a value, a one-character checksum
    as digest, and a model that answers [picks_text] to the first call
    and fails later. *)
Definition id_text (v : pyval) : string :=
  match field v "id" PNone with
  | PStr t => t
  | _ => "?"
  end.

Definition kind_dumps (v : pyval) : string :=
  match v with
  | PNone => "null"
  | PBool _ => "bool"
  | PInt _ | PFloat _ => "number"
  | PStr s => s
  | PList l => "list " ++ String.concat "," (map id_text l)
  | PDict _ => "dict"
  end.

Fixpoint code_sum (s : string) : nat :=
  match s with
  | EmptyString => 0%nat
  | String a rest => (nat_of_ascii a + code_sum rest)%nat
  end.

Definition checksum (s : string) : string :=
  String (ascii_of_nat (code_sum s mod 256)) EmptyString.

Definition answer_once (before : list run_input) (_ : run_input)
  : stream_outcome :=
  match before with
  | [] => Chunks [dq "Sure! Here are my picks: [{'id':'prod001',";
                  dq "'explanation':'Matches running preference','confidence_score':8}] Hope this helps!"]
  | _ => Fails "connection reset"
  end.

Definition always_down (_ : list run_input) (_ : run_input) : stream_outcome :=
  Fails "connection reset".

Definition no_calls : World := {| issued := [] |}.

(** The prompt of the sample request, the result of its first call, and
    the service and the remote service after that call. *)
Definition sample_prompt : string :=
  _create_recommendation_prompt kind_dumps sample_preferences sample_history
    sample_products.

Definition sample_result : RecommendationResult :=
  {| recommendations :=
       [{| product := prod001;
           explanation := PStr "Matches running preference";
           confidence_score := PInt 8 |}];
     count := 1;
     error := None |}.

Definition warm_service : LLMService :=
  {| cache := <[checksum sample_prompt := sample_result]> ∅ |}.

Definition one_call : World := {| issued := [input_data sample_prompt 512] |}.

(** Two catalogs that agree on their first five products and differ in
    the sixth, which has the same id in both; a model that recommends that
    sixth product; and the result of its answer against the first
    catalog. *)
Definition first_five : list pyval :=
  [prod001; prod002; shoe "prod003" 40; shoe "prod004" 60; shoe "prod005" 120].

Definition catalog_a : list pyval := (first_five ++ [shoe "prod006" 80])%list.

Definition catalog_b : list pyval := (first_five ++ [shoe "prod006" 200])%list.

Definition answer_sixth (_ : list run_input) (_ : run_input) : stream_outcome :=
  Chunks [dq "[{'id': 'prod006', 'confidence_score': 7}]"].

Definition sixth_result : RecommendationResult :=
  {| recommendations :=
       [{| product := shoe "prod006" 80;
           explanation := PStr EmptyString;
           confidence_score := PInt 7 |}];
     count := 1;
     error := None |}.

Definition sixth_prompt : string :=
  _create_recommendation_prompt kind_dumps sample_preferences sample_history
    catalog_a.

Definition sixth_service : LLMService :=
  {| cache := <[checksum sixth_prompt := sixth_result]> ∅ |}.

Definition sixth_call : World := {| issued := [input_data sixth_prompt 512] |}.

(** A model that sends the text of [picks_text] in three chunks. *)
Definition answer_in_three (_ : list run_input) (_ : run_input)
  : stream_outcome :=
  Chunks [dq "Sure! Here are my picks: [{'id':";
          dq "'prod001','explanation':'Matches running preference',";
          dq "'confidence_score':8}] Hope this helps!"].

End Samples.

(** ** Facts about the decoder *)

Module JsonFacts.
Import Py Json.
Local Open Scope nat_scope.

Lemma bind_Dec {A B : Type} (m : decoded A) (f : A → decoded B) (b : B) :
  m ≫= f = Dec b → ∃ a, m = Dec a ∧ f a = Dec b.
Proof.
  destruct m as [a | |]; simpl; [eauto | discriminate..].
Qed.

Lemma bind_fuel {A B : Type} (m : decoded A) (f : A → decoded B) :
  m ≠ OutOfFuel → (∀ a, m = Dec a → f a ≠ OutOfFuel) → m ≫= f ≠ OutOfFuel.
Proof.
  destruct m as [a | |]; simpl; [auto | done..].
Qed.

Lemma skip_ws_length (s : string) :
  String.length (skip_ws s) ≤ String.length s.
Proof.
  induction s as [|a rest IH]; simpl; [done |].
  destruct (is_ws a); simpl; lia.
Qed.

Lemma strip_prefix_length (p s r : string) :
  strip_prefix p s = Some r → String.length s = String.length p + String.length r.
Proof.
  revert s. induction p as [|a p IH]; intros s; simpl.
  - by intros [= ->].
  - destruct s as [|b s]; [discriminate |].
    destruct (Ascii.eqb a b); [| discriminate].
    intros H. apply IH in H. simpl. lia.
Qed.

Lemma span_digits_length (acc : Z) (count : nat) (s : string) :
  String.length (span_digits acc count s).2 ≤ String.length s.
Proof.
  revert acc count. induction s as [|a rest IH]; intros acc count; simpl; [done |].
  destruct (digit_val a); simpl; [| done].
  specialize (IH (10 * acc + z)%Z (S count)). lia.
Qed.

Lemma hex4_length (s r : string) (cp : Z) :
  hex4 s = Some (cp, r) → String.length s = 4 + String.length r.
Proof.
  unfold hex4. repeat case_match; try discriminate. by intros [= _ <-].
Qed.

Lemma scanstring_from_length (s : string) :
  ∀ k t r, scanstring_from k s = Dec (t, r) → String.length r < String.length s.
Proof.
  induction s as [|a rest IH]; intros k t r; simpl; [discriminate |].
  destruct k as [|k]; [| intros H; apply IH in H; lia].
  repeat case_match; try discriminate; intros Hscan;
    repeat match goal with
      | Hb : _ ≫= _ = Dec _ |- _ => apply bind_Dec in Hb as ([? ?] & ? & ?)
      | Hr : scanstring_from _ _ = Dec _ |- _ => apply IH in Hr
      end;
    simplify_eq; simpl in *; lia.
Qed.

Lemma join_surrogate_fuel (cp : Z) (s : string) :
  join_surrogate cp s ≠ OutOfFuel.
Proof.
  unfold join_surrogate. repeat case_match; done.
Qed.

(** Reading a string literal takes no fuel. *)
Lemma scanstring_from_fuel (s : string) :
  ∀ k, scanstring_from k s ≠ OutOfFuel.
Proof.
  induction s as [|a rest IH]; intros k; simpl; [done |].
  destruct k as [|k]; [| apply IH].
  repeat case_match; try done;
    repeat (apply bind_fuel;
            [first [apply IH | apply join_surrogate_fuel] | intros [? ?] ?]);
    done.
Qed.

Lemma take_char_length (c : ascii) (s r : string) :
  take_char c s = Some r → String.length s = S (String.length r).
Proof.
  destruct s as [|a rest]; simpl; [discriminate |].
  destruct (Ascii.eqb a c); [| discriminate]. by intros [= ->].
Qed.

Lemma scan_int_length (s r : string) (n : Z) :
  scan_int s = Some (n, r) → String.length r < String.length s.
Proof.
  destruct s as [|a rest]; simpl; [discriminate |].
  destruct (Ascii.eqb a "0"%char); [intros [= _ <-]; lia |].
  destruct (digit_val a) as [d|]; [| discriminate].
  pose proof (span_digits_length (10 * 0 + d) 1 rest) as Hlen.
  destruct (span_digits _ _ rest) as [[m k] r']. intros [= _ <-]. simpl in *. lia.
Qed.

Lemma scan_frac_length (n m : Z) (k : nat) (s r : string) :
  scan_frac n s = Some (m, k, r) → String.length r < String.length s.
Proof.
  unfold scan_frac. destruct (take_char _ s) as [r1|] eqn:Hdot; [| discriminate].
  apply take_char_length in Hdot.
  pose proof (span_digits_length n 0 r1) as Hlen.
  destruct (span_digits n 0 r1) as [[m' k'] r'].
  destruct k'; [discriminate |]. intros [= _ _ <-]. simpl in *. lia.
Qed.

Lemma scan_exp_length (x : Z) (s r : string) :
  scan_exp s = Some (x, r) → String.length r < String.length s.
Proof.
  destruct s as [|e r0]; simpl; [discriminate |].
  destruct (_ || _); [| discriminate].
  destruct (take_char "-"%char r0) as [r1|] eqn:Hminus.
  - apply take_char_length in Hminus.
    pose proof (span_digits_length 0 0 r1) as Hlen.
    destruct (span_digits 0 0 r1) as [[m k] r'].
    destruct k; [discriminate |]. intros [= _ <-]. simpl in *. lia.
  - destruct (take_char "+"%char r0) as [r1|] eqn:Hplus.
    + apply take_char_length in Hplus.
      pose proof (span_digits_length 0 0 r1) as Hlen.
      destruct (span_digits 0 0 r1) as [[m k] r'].
      destruct k; [discriminate |]. intros [= _ <-]. simpl in *. lia.
    + pose proof (span_digits_length 0 0 r0) as Hlen.
      destruct (span_digits 0 0 r0) as [[m k] r'].
      destruct k; [discriminate |]. intros [= _ <-]. simpl in *. lia.
Qed.

Lemma match_number_length (s r : string) (v : pyval) :
  match_number s = Dec (v, r) → String.length r < String.length s.
Proof.
  unfold match_number.
  assert (∀ s1, String.length s1 ≤ String.length s →
    match scan_int s1 with
    | Some (n, s2) =>
        ∀ sgn : Z → Z,
        match scan_frac n s2 with
        | Some (mant, scale, s3) =>
            match scan_exp s3 with
            | Some (expo, s4) => Dec (PFloat (FFin (decimal (sgn mant) scale expo)), s4)
            | None => Dec (PFloat (FFin (decimal (sgn mant) scale 0)), s3)
            end
        | None =>
            match scan_exp s2 with
            | Some (expo, s4) => Dec (PFloat (FFin (decimal (sgn n) 0 expo)), s4)
            | None => Dec (PInt (sgn n), s2)
            end
        end = Dec (v, r) → String.length r < String.length s
    | None => True
    end) as Hcore.
  { intros s1 Hs1. destruct (scan_int s1) as [[n s2]|] eqn:Hint; [| done].
    apply scan_int_length in Hint. intros sgn.
    destruct (scan_frac n s2) as [[[mant scale] s3]|] eqn:Hfrac.
    - apply scan_frac_length in Hfrac.
      destruct (scan_exp s3) as [[expo s4]|] eqn:Hexp.
      + apply scan_exp_length in Hexp. intros [= _ <-]. lia.
      + intros [= _ <-]. lia.
    - destruct (scan_exp s2) as [[expo s4]|] eqn:Hexp.
      + apply scan_exp_length in Hexp. intros [= _ <-]. lia.
      + intros [= _ <-]. lia. }
  destruct (take_char "-"%char s) as [r1|] eqn:Hminus.
  - apply take_char_length in Hminus.
    specialize (Hcore r1 ltac:(lia)).
    destruct (scan_int r1) as [[n s2]|]; [apply Hcore | discriminate].
  - specialize (Hcore s ltac:(lia)).
    destruct (scan_int s) as [[n s2]|]; [apply Hcore | discriminate].
Qed.

Lemma scan_constant_length (s r : string) (v : pyval) :
  scan_constant s = Some (v, r) → String.length r < String.length s.
Proof.
  unfold scan_constant.
  repeat (destruct (strip_prefix _ s) eqn:?;
          [apply strip_prefix_length in Heqo; intros [= _ <-]; simpl in *; lia |
           clear Heqo]).
  discriminate.
Qed.

(** What follows a value is shorter than the text the value was read from. *)
Lemma scan_length (fuel : nat) :
  (∀ s v r, scan_once fuel s = Dec (v, r) → String.length r < String.length s) ∧
  (∀ s vs r, scan_elems fuel s = Dec (vs, r) → String.length r < String.length s) ∧
  (∀ s kvs r, scan_members fuel s = Dec (kvs, r) → String.length r < String.length s).
Proof.
  induction fuel as [|fuel (IHonce & IHelems & IHmembers)]; [by repeat split |].
  repeat split.
  - intros s v r. simpl.
    destruct (take_char dquote s) as [rest|] eqn:Hq.
    { apply take_char_length in Hq. intros Hscan.
      apply bind_Dec in Hscan as ([t r1] & Ht & [= _ <-]).
      apply scanstring_from_length in Ht. lia. }
    destruct (take_char "["%char s) as [rest|] eqn:Hb.
    { apply take_char_length in Hb. pose proof (skip_ws_length rest).
      destruct (take_char "]"%char (skip_ws rest)) as [r1|] eqn:Hc.
      - apply take_char_length in Hc. intros [= _ <-]. lia.
      - intros Hscan. apply bind_Dec in Hscan as ([vs r1] & Hvs & [= _ <-]).
        apply IHelems in Hvs. lia. }
    destruct (take_char "{"%char s) as [rest|] eqn:Ho.
    { apply take_char_length in Ho. pose proof (skip_ws_length rest).
      destruct (take_char "}"%char (skip_ws rest)) as [r1|] eqn:Hc.
      - apply take_char_length in Hc. intros [= _ <-]. lia.
      - intros Hscan. apply bind_Dec in Hscan as ([kvs r1] & Hkvs & [= _ <-]).
        apply IHmembers in Hkvs. lia. }
    destruct (scan_constant s) as [[v1 r1]|] eqn:Hk.
    { apply scan_constant_length in Hk. intros [= _ <-]. lia. }
    apply match_number_length.
  - intros s vs r. simpl. intros Hscan.
    apply bind_Dec in Hscan as ([v r1] & Hv & Hscan). apply IHonce in Hv.
    pose proof (skip_ws_length r1).
    destruct (take_char "]"%char (skip_ws r1)) as [r2|] eqn:Hc.
    { apply take_char_length in Hc. injection Hscan as _ <-. lia. }
    destruct (take_char ","%char (skip_ws r1)) as [r2|] eqn:Hcomma; [| discriminate].
    apply take_char_length in Hcomma. pose proof (skip_ws_length r2).
    apply bind_Dec in Hscan as ([vs1 r3] & Hvs & [= _ <-]).
    apply IHelems in Hvs. lia.
  - intros s kvs r. simpl.
    destruct (take_char dquote s) as [rest|] eqn:Hq; [| discriminate].
    apply take_char_length in Hq. intros Hscan.
    apply bind_Dec in Hscan as ([k r1] & Hk & Hscan).
    apply scanstring_from_length in Hk. pose proof (skip_ws_length r1).
    destruct (take_char ":"%char (skip_ws r1)) as [r2|] eqn:Hcolon; [| discriminate].
    apply take_char_length in Hcolon. pose proof (skip_ws_length r2).
    apply bind_Dec in Hscan as ([v r3] & Hv & Hscan). apply IHonce in Hv.
    pose proof (skip_ws_length r3).
    destruct (take_char "}"%char (skip_ws r3)) as [r4|] eqn:Hc.
    { apply take_char_length in Hc. injection Hscan as _ <-. lia. }
    destruct (take_char ","%char (skip_ws r3)) as [r4|] eqn:Hcomma; [| discriminate].
    apply take_char_length in Hcomma. pose proof (skip_ws_length r4).
    apply bind_Dec in Hscan as ([kvs1 r5] & Hkvs & [= _ <-]).
    apply IHmembers in Hkvs. lia.
Qed.

(** Two units of fuel for each character, and one more, are enough for a
    value; the elements of an array and the members of an object take one
    unit more. *)
Lemma scan_fuel (fuel : nat) :
  (∀ s, 2 * String.length s + 1 ≤ fuel → scan_once fuel s ≠ OutOfFuel) ∧
  (∀ s, 2 * String.length s + 2 ≤ fuel → scan_elems fuel s ≠ OutOfFuel) ∧
  (∀ s, 2 * String.length s + 2 ≤ fuel → scan_members fuel s ≠ OutOfFuel).
Proof.
  induction fuel as [|fuel (IHonce & IHelems & IHmembers)];
    [repeat split; intros; lia |].
  destruct (scan_length fuel) as (Lonce & Lelems & Lmembers).
  repeat split.
  - intros s Hfuel. simpl.
    destruct (take_char dquote s) as [rest|] eqn:Hq.
    { apply bind_fuel; [apply scanstring_from_fuel |]. by intros [t r]. }
    destruct (take_char "["%char s) as [rest|] eqn:Hb.
    { apply take_char_length in Hb. pose proof (skip_ws_length rest).
      destruct (take_char "]"%char (skip_ws rest)); [done |].
      apply bind_fuel; [apply IHelems; lia |]. by intros [vs r]. }
    destruct (take_char "{"%char s) as [rest|] eqn:Ho.
    { apply take_char_length in Ho. pose proof (skip_ws_length rest).
      destruct (take_char "}"%char (skip_ws rest)); [done |].
      apply bind_fuel; [apply IHmembers; lia |]. by intros [kvs r]. }
    destruct (scan_constant s) as [[v r]|]; [done |].
    unfold match_number. repeat case_match; done.
  - intros s Hfuel. simpl.
    apply bind_fuel; [apply IHonce; lia |].
    intros [v r1] Hv. apply Lonce in Hv. pose proof (skip_ws_length r1).
    destruct (take_char "]"%char (skip_ws r1)); [done |].
    destruct (take_char ","%char (skip_ws r1)) as [r2|] eqn:Hcomma; [| done].
    apply take_char_length in Hcomma. pose proof (skip_ws_length r2).
    apply bind_fuel; [apply IHelems; lia |]. by intros [vs r3].
  - intros s Hfuel. simpl.
    destruct (take_char dquote s) as [rest|] eqn:Hq; [| done].
    apply take_char_length in Hq.
    apply bind_fuel; [apply scanstring_from_fuel |].
    intros [k r1] Hk.
    apply scanstring_from_length in Hk. pose proof (skip_ws_length r1).
    destruct (take_char ":"%char (skip_ws r1)) as [r2|] eqn:Hcolon; [| done].
    apply take_char_length in Hcolon. pose proof (skip_ws_length r2).
    apply bind_fuel; [apply IHonce; lia |].
    intros [v r3] Hv. apply Lonce in Hv. pose proof (skip_ws_length r3).
    destruct (take_char "}"%char (skip_ws r3)); [done |].
    destruct (take_char ","%char (skip_ws r3)) as [r4|] eqn:Hcomma; [| done].
    apply take_char_length in Hcomma. pose proof (skip_ws_length r4).
    apply bind_fuel; [apply IHmembers; lia |]. by intros [kvs r5].
Qed.

(** The decoder never runs out of fuel: when [loads] raises, the text is
    not a JSON value. *)
Theorem loads_total (s : string) : decode s ≠ OutOfFuel.
Proof.
  unfold decode, fuel_for.
  apply bind_fuel; [apply scan_fuel; lia |].
  intros [v r] _. by destruct (skip_ws r).
Qed.

End JsonFacts.

(** ** Facts about the response parser *)

Module ParserFacts.
Import Py LLMService.
Local Open Scope list_scope.

(** An exception passes through a sequence of statements. *)
Lemma bind_Ok {A B : Type} (m : result A) (f : A → result B) (b : B) :
  m ≫= f = Ok b → ∃ a, m = Ok a ∧ f a = Ok b.
Proof.
  destruct m as [a | e]; simpl; [eauto | discriminate].
Qed.

Lemma get_Ok (x : pyval) (k : string) (default v : pyval) :
  get x k default = Ok v → is_dict x = true ∧ v = field x k default.
Proof.
  destruct x; simpl; try discriminate.
  intros [= <-]. done.
Qed.

Lemma get_dict (x : pyval) (k : string) (default : pyval) :
  is_dict x = true → get x k default = Ok (field x k default).
Proof.
  destruct x; simpl; done.
Qed.

(** A product whose id was read is a dict that is not empty. *)
Lemma id_is_truthy (pid p : pyval) : id_is pid p = true → truthy p = true.
Proof.
  unfold id_is, subscript.
  destruct p as [| | | | | |d]; try discriminate.
  destruct d; simpl; [discriminate | done].
Qed.

Lemma id_is_has_id (pid p : pyval) : id_is pid p = true → has_id p = true.
Proof.
  unfold id_is, has_id. destruct (subscript p "id"); done.
Qed.

(** When the generator expression runs to its end or to a match, it finds
    what [resolve] finds. *)
Lemma next_product_Ok (products : list pyval) (pid v : pyval) :
  next_product products pid = Ok v →
  (resolve products pid = None ∧ v = PNone) ∨
  (resolve products pid = Some v ∧ truthy v = true).
Proof.
  unfold resolve.
  induction products as [|p rest IH]; simpl.
  - intros [= <-]. by left.
  - intros H. apply bind_Ok in H as (id & Hid & H).
    unfold id_is at 1 3. rewrite Hid.
    destruct (py_eq id pid) eqn:Heq.
    + injection H as <-. right. split; [done |].
      apply (id_is_truthy pid). unfold id_is. by rewrite Hid.
    + by apply IH.
Qed.

(** On a catalog whose products all carry an id, it raises nothing. *)
Lemma next_product_total (products : list pyval) (pid : pyval) :
  Forall (λ p, has_id p = true) products →
  next_product products pid = Ok (default PNone (resolve products pid)).
Proof.
  unfold resolve.
  induction 1 as [|p rest Hp _ IH]; simpl; [done |].
  unfold has_id in Hp. unfold id_is at 1.
  destruct (subscript p "id") as [id|] eqn:Hid; [| done]. simpl.
  by destruct (py_eq id pid).
Qed.

(** [List.find] returns the earliest element that passes the test. *)
Lemma find_earliest {A : Type} (f : A → bool) (l : list A) (x : A) :
  List.find f l = Some x ↔
  ∃ pre post, l = pre ++ x :: post ∧ f x = true ∧
              Forall (λ y, f y = false) pre.
Proof.
  split.
  - induction l as [|y rest IH]; simpl; [discriminate |].
    destruct (f y) eqn:Hy.
    + intros [= <-]. exists [], rest. by repeat split.
    + intros H. destruct (IH H) as (pre & post & -> & Hx & Hpre).
      exists (y :: pre), post. repeat split; [done |]. by constructor.
  - intros (pre & post & -> & Hx & Hpre).
    induction Hpre as [|y pre Hy _ IH]; simpl.
    + by rewrite Hx.
    + by rewrite Hy.
Qed.

Lemma find_nothing {A : Type} (f : A → bool) (l : list A) :
  List.find f l = None ↔ Forall (λ y, f y = false) l.
Proof.
  split.
  - induction l as [|y rest IH]; simpl; [by constructor |].
    destruct (f y) eqn:Hy; [discriminate |].
    intros H. constructor; [done | by apply IH].
  - induction 1 as [|y rest Hy _ IH]; simpl; [done |]. by rewrite Hy.
Qed.

(** What [resolve] returns is the earliest product of the catalog with
    that id. *)
Lemma resolve_Some (products : list pyval) (pid p : pyval) :
  resolve products pid = Some p ↔
  ∃ pre post, products = pre ++ p :: post ∧ id_is pid p = true ∧
              Forall (λ q, id_is pid q = false) pre.
Proof.
  apply find_earliest.
Qed.

Lemma resolve_None (products : list pyval) (pid : pyval) :
  resolve products pid = None ↔ Forall (λ q, id_is pid q = false) products.
Proof.
  apply find_nothing.
Qed.

Lemma resolve_elem_of (products : list pyval) (pid p : pyval) :
  resolve products pid = Some p → p ∈ products.
Proof.
  intros H. apply resolve_Some in H as (pre & post & -> & _).
  apply elem_of_app. right. by left.
Qed.

(** Products without the id in front of a product with it do not hide it. *)
Lemma next_product_earliest (pre post : list pyval) (pid p : pyval) :
  Forall (λ q, has_id q = true ∧ id_is pid q = false) pre →
  id_is pid p = true →
  next_product (pre ++ p :: post) pid = Ok p.
Proof.
  intros Hpre Hp. induction Hpre as [|q pre [Hq Hne] _ IH]; simpl.
  - unfold id_is in Hp. destruct (subscript p "id"); [| done]. simpl.
    by rewrite Hp.
  - unfold has_id in Hq. unfold id_is in Hne.
    destruct (subscript q "id"); [| done]. simpl. by rewrite Hne.
Qed.

Lemma next_product_none (products : list pyval) (pid : pyval) :
  Forall (λ q, has_id q = true ∧ id_is pid q = false) products →
  next_product products pid = Ok PNone.
Proof.
  induction 1 as [|q rest [Hq Hne] _ IH]; simpl; [done |].
  unfold has_id in Hq. unfold id_is in Hne.
  destruct (subscript q "id"); [| done]. simpl. by rewrite Hne.
Qed.

(** One turn of the loop appends the recommendation of the element, if it
    has one. *)
Lemma parse_item_Ok (products : list pyval) (item : pyval)
    (acc recs : list Recommendation) :
  parse_item products item acc = Ok recs →
  is_dict item = true ∧ recs = acc ++ option_list (recommend products item).
Proof.
  unfold parse_item. intros H.
  apply bind_Ok in H as (pid & Hpid & H).
  apply bind_Ok in H as (ex & Hex & H).
  apply bind_Ok in H as (sc & Hsc & H).
  apply bind_Ok in H as (pd & Hpd & H).
  apply get_Ok in Hpid as [Hd ->], Hex as [_ ->], Hsc as [_ ->].
  split; [done |]. unfold recommend.
  destruct (next_product_Ok _ _ _ Hpd) as [[-> ->] | [-> Ht]].
  - simpl in H. injection H as <-. simpl. by rewrite app_nil_r.
  - rewrite Ht in H. by injection H as <-.
Qed.

Lemma parse_item_total (products : list pyval) (item : pyval)
    (acc : list Recommendation) :
  Forall (λ p, has_id p = true) products → is_dict item = true →
  parse_item products item acc = Ok (acc ++ option_list (recommend products item)).
Proof.
  intros Hcat Hd. unfold parse_item, recommend.
  rewrite !get_dict by done. simpl.
  rewrite next_product_total by done. simpl.
  destruct (resolve products (field item "id" PNone)) as [p|] eqn:Hres; simpl.
  - apply resolve_Some in Hres as (_ & _ & _ & Hp & _).
    by rewrite (id_is_truthy _ _ Hp).
  - by rewrite app_nil_r.
Qed.

(** The loop: whenever it ends without an exception, every element was an
    object and the result is the recommendations of the elements, in the
    order of the elements. *)
Lemma parse_items_Ok (products parsed : list pyval)
    (acc recs : list Recommendation) :
  parse_items products parsed acc = Ok recs →
  Forall (λ item, is_dict item = true) parsed ∧
  recs = acc ++ omap (recommend products) parsed.
Proof.
  revert acc. induction parsed as [|item rest IH]; intros acc; simpl.
  - intros [= <-]. split; [constructor | by rewrite app_nil_r].
  - intros H. apply bind_Ok in H as (acc' & Hitem & H).
    apply parse_item_Ok in Hitem as [Hd ->].
    apply IH in H as [Hrest ->]. split; [by constructor |].
    rewrite <- app_assoc. by destruct (recommend products item).
Qed.

Lemma parse_items_total (products parsed : list pyval)
    (acc : list Recommendation) :
  Forall (λ p, has_id p = true) products →
  Forall (λ item, is_dict item = true) parsed →
  parse_items products parsed acc = Ok (acc ++ omap (recommend products) parsed).
Proof.
  intros Hcat Hparsed. revert acc.
  induction Hparsed as [|item rest Hd _ IH]; intros acc; simpl.
  - by rewrite app_nil_r.
  - rewrite parse_item_total by done. simpl. rewrite IH.
    rewrite <- app_assoc. by destruct (recommend products item).
Qed.

(** The loop over two arrays in a row. *)
Lemma parse_items_app (products l1 l2 : list pyval)
    (acc : list Recommendation) :
  parse_items products (l1 ++ l2) acc
    = parse_items products l1 acc ≫= parse_items products l2.
Proof.
  revert acc. induction l1 as [|item rest IH]; intros acc; simpl; [done |].
  destruct (parse_item products item acc) as [acc' | e]; simpl; [apply IH | done].
Qed.

(** An object whose id resolves to nothing does not change the outcome of
    the loop, whatever the other elements are. *)
Lemma parse_items_skip (products pre post : list pyval) (item : pyval) :
  Forall (λ p, has_id p = true) products →
  is_dict item = true →
  resolve products (field item "id" PNone) = None →
  parse_items products (pre ++ item :: post) []
    = parse_items products (pre ++ post) [].
Proof.
  intros Hcat Hd Hnone. rewrite !parse_items_app.
  destruct (parse_items products pre []) as [acc | e]; simpl; [| done].
  rewrite parse_item_total by done. unfold recommend. rewrite Hnone. simpl.
  by rewrite app_nil_r.
Qed.

(** A raw text that carries an array is parsed by the loop over it. *)
Lemma parse_response_array (raw_text : string) (parsed products : list pyval) :
  carries_array raw_text parsed →
  _parse_recommendation_response raw_text products = parse_items products parsed [].
Proof.
  intros (Hs & He & Hj). unfold _parse_recommendation_response.
  apply Z.eqb_neq in Hs, He. rewrite Hs, He. simpl. by rewrite Hj.
Qed.

(** The values an [omap] keeps come from a subsequence of its input. *)
Lemma omap_sublist {A B : Type} (f : A → option B) (l : list A) :
  ∃ kept, sublist kept l ∧ Forall2 (λ x y, f x = Some y) kept (omap f l).
Proof.
  induction l as [|x l (kept & Hsub & Hall)]; simpl.
  - exists []. split; constructor.
  - destruct (f x) as [y|] eqn:Hx.
    + exists (x :: kept). split; [by constructor | by constructor].
    + exists kept. split; [by constructor | done].
Qed.

End ParserFacts.

(** ** Properties of the response parser and of the lookup by id *)

Module ParserProps.
Import Py LLMService ParserFacts.
Local Open Scope list_scope.

(** The three soft failures of the parser: without a bracket pair, with a
    text between the brackets that does not decode, and with a decoded
    value that is not an array, the result is the empty list. *)
Lemma parse_soft_failures (raw_text : string) (products : list pyval) :
  let json_text := slice raw_text (str_find raw_text "["%char)
                     (str_rfind raw_text "]"%char + 1) in
  (str_find raw_text "["%char = -1 ∨ str_rfind raw_text "]"%char = -1 →
   _parse_recommendation_response raw_text products = Ok []) ∧
  (Json.loads json_text = Raise JSONDecodeError →
   _parse_recommendation_response raw_text products = Ok []) ∧
  (∀ v, Json.loads json_text = Ok v → (∀ l, v ≠ PList l) →
   _parse_recommendation_response raw_text products = Ok []).
Proof.
  unfold _parse_recommendation_response. repeat split.
  - intros [-> | ->]; simpl; [done |]. by rewrite orb_true_r.
  - intros ->. by destruct (_ || _).
  - intros v -> Hv. destruct (_ || _); [done |].
    destruct v; try done. by destruct (Hv l).
Qed.

(** The parser raises nothing but what the loop raises: its result is the
    empty list, or the raw text carries an array and the loop ran on it. *)
Lemma parse_response_cases (raw_text : string) (products : list pyval) :
  _parse_recommendation_response raw_text products = Ok [] ∨
  ∃ parsed, carries_array raw_text parsed ∧
            _parse_recommendation_response raw_text products
              = parse_items products parsed [].
Proof.
  unfold _parse_recommendation_response, carries_array.
  destruct (str_find raw_text "["%char =? -1) eqn:Hs; [by left |].
  destruct (str_rfind raw_text "]"%char =? -1) eqn:He; [by left |].
  simpl. apply Z.eqb_neq in Hs, He.
  destruct (Json.loads _) as [v | e] eqn:Hj.
  - destruct v; try by left. right. by eexists.
  - unfold Json.loads in Hj. destruct (Json.decode _); try discriminate;
      injection Hj as <-; by left.
Qed.

(** X23: whatever the raw text and the catalog, a recommendation that the
    parser returns holds a product of the catalog. *)
Lemma parsed_products_in_catalog (raw_text : string) (products : list pyval)
    (recs : list Recommendation) :
  _parse_recommendation_response raw_text products = Ok recs →
  ∀ r, r ∈ recs → product r ∈ products.
Proof.
  intros H r Hr.
  destruct (parse_response_cases raw_text products) as [H0 | (parsed & _ & Hp)].
  - rewrite H0 in H. injection H as <-. by apply elem_of_nil in Hr.
  - rewrite Hp in H. apply parse_items_Ok in H as [_ ->]. simpl in Hr.
    apply list_elem_of_omap in Hr as (item & _ & Hitem).
    unfold recommend in Hitem.
    destruct (resolve products _) as [p|] eqn:Hres; [| discriminate].
    injection Hitem as <-. simpl. by eapply resolve_elem_of.
Qed.

(** X22: an exception of the parser reaches the caller of
    [generate_recommendations], which parses outside of its [try]: nothing
    is returned and nothing is cached. *)
Lemma parser_exception_reaches_caller
    (json_dumps : pyval → string) (md5_hexdigest : string → string)
    (replicate_run : list run_input → run_input → stream_outcome)
    (self : LLMService) (w : World) (preferences browsing_history : pyval)
    (products : list pyval) (chunks : list string) (e : exn) :
  cache self !! md5_hexdigest
    (_create_recommendation_prompt json_dumps preferences browsing_history
       products) = None →
  replicate_run (issued w)
    (input_data
       (_create_recommendation_prompt json_dumps preferences browsing_history
          products) 512) = Chunks chunks →
  _parse_recommendation_response (fold_left String.append chunks EmptyString)
    products = Raise e →
  generate_recommendations json_dumps md5_hexdigest replicate_run self w
    preferences browsing_history products
  = (Raise e, self,
     {| issued := issued w ++
          [input_data
             (_create_recommendation_prompt json_dumps preferences
                browsing_history products) 512] |}).
Proof.
  intros Hmiss Hrun Hparse. unfold generate_recommendations.
  rewrite Hmiss. unfold _call_llm. by rewrite Hrun, Hparse.
Qed.

(** C3 (the failing input): the array [[1]] decodes, its element is not an
    object, and [item.get] raises [AttributeError], which the parser does
    not catch, whatever the catalog; [generate_recommendations] then
    returns nothing: the exception reaches its caller. *)
Theorem parser_raises_on_non_object_element :
  (∀ products, _parse_recommendation_response "[1]" products
                 = Raise AttributeError) ∧
  generate_recommendations Samples.kind_dumps Samples.checksum
    Samples.answer_number __init__ Samples.no_calls Samples.sample_preferences
    Samples.sample_history Samples.sample_products
  = (Raise AttributeError, __init__, Samples.one_call).
Proof.
  split.
  - intros products. reflexivity.
  - vm_compute. reflexivity.
Qed.

(** C4: for a raw text that carries an array and a catalog whose products
    carry an id: every recommendation that the parser returns holds a
    product of the catalog, the one that the id of an array element
    resolves to; an array element, an object, whose id resolves to no
    product is skipped, the outcome being that of the array without it;
    and an array of one object whose id resolves and one whose id does not
    gives exactly one recommendation. *)
Theorem recommended_products_in_catalog (raw_text : string)
    (parsed products : list pyval) :
  carries_array raw_text parsed →
  Forall (λ p, has_id p = true) products →
  (∀ recs r,
     _parse_recommendation_response raw_text products = Ok recs →
     r ∈ recs →
     product r ∈ products ∧
     ∃ item, item ∈ parsed ∧
             resolve products (field item "id" PNone) = Some (product r)) ∧
  (∀ pre item post,
     parsed = pre ++ item :: post →
     is_dict item = true →
     resolve products (field item "id" PNone) = None →
     _parse_recommendation_response raw_text products
       = parse_items products (pre ++ post) []) ∧
  (∀ a b p,
     parsed = [a; b] ∨ parsed = [b; a] →
     is_dict a = true → is_dict b = true →
     resolve products (field a "id" PNone) = Some p →
     resolve products (field b "id" PNone) = None →
     _parse_recommendation_response raw_text products
       = Ok [{| product := p;
                explanation := field a "explanation" (PStr EmptyString);
                confidence_score := field a "confidence_score" (PInt 5) |}]).
Proof.
  intros Harr Hcat. rewrite (parse_response_array _ _ _ Harr).
  split; [| split].
  - intros recs r Hrecs Hr. apply parse_items_Ok in Hrecs as [_ ->].
    simpl in Hr. apply list_elem_of_omap in Hr as (item & Hin & Hitem).
    unfold recommend in Hitem.
    destruct (resolve products _) as [p|] eqn:Hres; [| discriminate].
    injection Hitem as <-. simpl. split; [by eapply resolve_elem_of |].
    by exists item.
  - intros pre item post -> Hd Hnone. by apply parse_items_skip.
  - intros a b p Hparsed Ha Hb Hsome Hnone.
    rewrite parse_items_total;
      [| done | destruct Hparsed as [-> | ->]; by repeat constructor].
    destruct Hparsed as [-> | ->]; simpl; unfold recommend;
      by rewrite Hsome, Hnone.
Qed.

Lemma recommended_products_in_catalog_witness :
  _parse_recommendation_response Samples.known_and_unknown_text
    [Samples.prod001; Samples.prod002]
  = Ok [{| product := Samples.prod001;
           explanation := PStr "Good fit";
           confidence_score := PInt 5 |}].
Proof.
  destruct (recommended_products_in_catalog Samples.known_and_unknown_text
              Samples.known_and_unknown [Samples.prod001; Samples.prod002])
    as (_ & _ & Hone).
  - repeat split; vm_compute; congruence.
  - repeat constructor.
  - apply (Hone (PDict [("id", PStr "prod001"); ("explanation", PStr "Good fit")])
             (PDict [("id", PStr "prod999"); ("confidence_score", PInt 9)])
             Samples.prod001).
    + left. reflexivity.
    + reflexivity.
    + reflexivity.
    + reflexivity.
    + reflexivity.
Defined.

(** C7: the raw text of the example, against any catalog in which a product
    with the id prod001 comes after products with other ids only, gives
    exactly one recommendation, with that product, the explanation of the
    text and the score 8; and in whatever the parser returns for a text
    that carries an array, each recommendation comes from an array element
    and has the explanation and the score of that element, or the empty
    string and 5 where the element has no such key. *)
Theorem picks_text_parses (pre post : list pyval) (p : pyval) :
  id_is (PStr "prod001") p = true →
  Forall (λ q, has_id q = true ∧ id_is (PStr "prod001") q = false) pre →
  _parse_recommendation_response Samples.picks_text (pre ++ p :: post)
    = Ok [{| product := p;
             explanation := PStr "Matches running preference";
             confidence_score := PInt 8 |}] ∧
  (∀ raw_text parsed products recs,
     carries_array raw_text parsed →
     _parse_recommendation_response raw_text products = Ok recs →
     ∃ kept, sublist kept parsed ∧
       Forall2
         (λ item r, ∃ d, item = PDict d ∧
            explanation r = default (PStr EmptyString) (dict_get d "explanation") ∧
            confidence_score r = default (PInt 5) (dict_get d "confidence_score"))
         kept recs).
Proof.
  intros Hp Hpre. split.
  - assert (carries_array Samples.picks_text
              [PDict [("id", PStr "prod001");
                      ("explanation", PStr "Matches running preference");
                      ("confidence_score", PInt 8)]]) as Harr
      by (repeat split; vm_compute; congruence).
    rewrite (parse_response_array _ _ _ Harr). simpl. unfold parse_item. simpl.
    rewrite next_product_earliest by done. simpl.
    by rewrite (id_is_truthy _ _ Hp).
  - intros raw_text parsed products recs Harr Hrecs.
    rewrite (parse_response_array _ _ _ Harr) in Hrecs.
    apply parse_items_Ok in Hrecs as [Hobj ->]. simpl.
    destruct (omap_sublist (recommend products) parsed) as (kept & Hsub & Hall).
    exists kept. split; [done |].
    assert (Forall (λ item, is_dict item = true) kept) as Hkept.
    { rewrite Forall_forall in Hobj. apply Forall_forall. intros item Hitem.
      apply Hobj. by eapply elem_of_sublist. }
    clear Hsub Hobj Harr.
    induction Hall as [|item r kept recs Hitem _ IH]; [constructor |].
    apply Forall_cons in Hkept as [Hd Hkept].
    constructor; [| by apply IH].
    destruct item as [| | | | | |d]; try discriminate. exists d.
    unfold recommend in Hitem.
    destruct (resolve products _); [| discriminate].
    injection Hitem as <-. simpl.
    split; [done |]. split; by destruct (dict_get d _).
Qed.

Lemma picks_text_parses_witness :
  _parse_recommendation_response Samples.picks_text
    [Samples.prod002; Samples.prod001; Samples.prod001_again]
  = Ok [{| product := Samples.prod001;
           explanation := PStr "Matches running preference";
           confidence_score := PInt 8 |}].
Proof.
  apply (picks_text_parses [Samples.prod002] [Samples.prod001_again]
           Samples.prod001).
  - reflexivity.
  - repeat constructor.
Defined.

(** C9: the recommendations come in the order of the array: the list the
    parser returns is, element by element, the recommendations of a
    subsequence of the array. *)
Theorem parser_preserves_order (raw_text : string) (parsed products : list pyval)
    (recs : list Recommendation) :
  carries_array raw_text parsed →
  _parse_recommendation_response raw_text products = Ok recs →
  recs = omap (recommend products) parsed ∧
  ∃ kept, sublist kept parsed ∧
          Forall2 (λ item r, recommend products item = Some r) kept recs.
Proof.
  intros Harr Hrecs.
  rewrite (parse_response_array _ _ _ Harr) in Hrecs.
  apply parse_items_Ok in Hrecs as [_ ->]. simpl.
  split; [done |]. apply omap_sublist.
Qed.

Lemma parser_preserves_order_witness :
  Samples.reversed_recommendations
    = omap (recommend [Samples.prod001; Samples.prod002]) Samples.reversed_array ∧
  ∃ kept, sublist kept Samples.reversed_array ∧
          Forall2
            (λ item r, recommend [Samples.prod001; Samples.prod002] item = Some r)
            kept Samples.reversed_recommendations.
Proof.
  apply (parser_preserves_order Samples.reversed_text Samples.reversed_array
           [Samples.prod001; Samples.prod002]
           Samples.reversed_recommendations).
  - repeat split; vm_compute; congruence.
  - vm_compute. reflexivity.
Defined.

End ParserProps.

(** ** Lookup by id *)

Module LookupProps.
Import Py LLMService ParserFacts ProductService.
Local Open Scope list_scope.

(** On a product that carries an id, [product.get("id")] is [product["id"]]. *)
Lemma get_id_is_id_is (pid p : pyval) :
  has_id p = true → get_id_is pid p = id_is pid p.
Proof.
  unfold has_id, get_id_is, id_is, get, subscript.
  destruct p as [| | | | | |d]; try discriminate.
  by destruct (dict_get d "id").
Qed.

(** The loop of [get_product_by_id] on a catalog of dicts. *)
Lemma first_with_id_find (products : list pyval) (pid : pyval) :
  Forall (λ p, is_dict p = true) products →
  first_with_id products pid
    = Ok (default PNone (List.find (get_id_is pid) products)).
Proof.
  induction 1 as [|p rest Hp _ IH]; simpl; [done |].
  unfold get_id_is at 1. rewrite get_dict by done. simpl.
  by destruct (py_eq _ pid).
Qed.

(** C10: on a catalog of dicts, [get_product_by_id] returns [None] when no
    product has the id that is asked for, and else the earliest product
    that has it; the generator expression of the parser does the same on
    the products it can read the id of, so that of two records with one
    id the earlier one is found. *)
Theorem lookup_resolves_first_match (self : ProductService) (pid : pyval) :
  Forall (λ p, is_dict p = true) (products self) →
  (Forall (λ q, get_id_is pid q = false) (products self) →
   get_product_by_id self pid = Ok PNone) ∧
  (∀ pre p post,
     products self = pre ++ p :: post →
     get_id_is pid p = true →
     Forall (λ q, get_id_is pid q = false) pre →
     get_product_by_id self pid = Ok p) ∧
  (Forall (λ q, has_id q = true ∧ id_is pid q = false) (products self) →
   next_product (products self) pid = Ok PNone) ∧
  (∀ pre p post,
     products self = pre ++ p :: post →
     id_is pid p = true →
     Forall (λ q, has_id q = true ∧ id_is pid q = false) pre →
     next_product (products self) pid = Ok p).
Proof.
  intros Hcat. unfold get_product_by_id.
  rewrite first_with_id_find by done.
  split; [| split; [| split]].
  - intros Hnone. apply find_nothing in Hnone. by rewrite Hnone.
  - intros pre p post Hsplit Hp Hpre.
    assert (List.find (get_id_is pid) (products self) = Some p) as ->; [| done].
    apply find_earliest. by exists pre, post.
  - apply next_product_none.
  - intros pre p post -> Hp Hpre. by apply next_product_earliest.
Qed.

Lemma lookup_resolves_first_match_witness :
  get_product_by_id
    {| data_path := "data/products.json";
       products := [Samples.prod002; Samples.prod001; Samples.prod001_again] |}
    (PStr "prod001") = Ok Samples.prod001 ∧
  next_product [Samples.prod002; Samples.prod001; Samples.prod001_again]
    (PStr "prod001") = Ok Samples.prod001.
Proof.
  destruct (lookup_resolves_first_match
              {| data_path := "data/products.json";
                 products := [Samples.prod002; Samples.prod001;
                              Samples.prod001_again] |}
              (PStr "prod001")) as (_ & Hget & _ & Hnext).
  - repeat constructor.
  - split.
    + apply (Hget [Samples.prod002] Samples.prod001 [Samples.prod001_again]);
        [reflexivity | reflexivity | repeat constructor].
    + apply (Hnext [Samples.prod002] Samples.prod001 [Samples.prod001_again]);
        [reflexivity | reflexivity | repeat constructor].
Defined.

End LookupProps.

(** ** Properties of the pipeline *)

Module PipelineProps.
Import Py LLMService.
Local Open Scope list_scope.

Section WithEnvironment.

Variable json_dumps : pyval → string.
Variable md5_hexdigest : string → string.
Variable replicate_run : list run_input → run_input → stream_outcome.

Local Abbreviation prompt_of := (_create_recommendation_prompt json_dumps).
Local Abbreviation generate := (generate_recommendations json_dumps md5_hexdigest replicate_run).

(** A call changes the cache by at most one entry, a success value. *)
Lemma generate_cache (self self' : LLMService) (w w' : World)
    (preferences browsing_history : pyval) (products : list pyval)
    (res : result RecommendationResult) :
  generate self w preferences browsing_history products = (res, self', w') →
  self' = self ∨
  ∃ r, res = Ok r ∧ is_success r ∧
       cache self' = <[md5_hexdigest (prompt_of preferences browsing_history products) := r]> (cache self).
Proof.
  unfold generate_recommendations.
  destruct (cache self !! _); [intros [= <- <- <-]; by left |].
  destruct (_call_llm _ _ _ _) as [[raw | e] w1]; [| intros [= <- <- <-]; by left].
  destruct (_parse_recommendation_response _ _) as [recs | e];
    [| intros [= <- <- <-]; by left].
  intros [= <- <- <-]. right. eexists. by repeat split.
Qed.

(** Every entry of the cache of a reachable service is a success value. *)
Lemma reachable_cache (self : LLMService) (w : World) :
  reachable json_dumps md5_hexdigest replicate_run self w →
  map_Forall (λ _ r, is_success r) (cache self).
Proof.
  induction 1 as [w | self w P H C res self' w' _ IH Hcall].
  - apply map_Forall_empty.
  - apply generate_cache in Hcall as [-> | (r & _ & Hr & ->)]; [done |].
    by apply map_Forall_insert_2.
Qed.

(** X21: when the model answers with a text that has no bracket pair, or whose
    bracketed part does not decode, or decodes to something else than an
    array, the call returns a success value with no recommendation. *)
Lemma malformed_output_is_zero_result (self : LLMService) (w : World)
    (preferences browsing_history : pyval) (products : list pyval)
    (chunks : list string) :
  cache self !! md5_hexdigest (prompt_of preferences browsing_history products)
    = None →
  replicate_run (issued w)
    (input_data (prompt_of preferences browsing_history products) 512)
    = Chunks chunks →
  (let raw_output := fold_left String.append chunks EmptyString in
   let json_text := slice raw_output (str_find raw_output "["%char)
                      (str_rfind raw_output "]"%char + 1) in
   str_find raw_output "["%char = -1 ∨ str_rfind raw_output "]"%char = -1 ∨
   Json.loads json_text = Raise JSONDecodeError ∨
   ∃ v, Json.loads json_text = Ok v ∧ ∀ l, v ≠ PList l) →
  (generate self w preferences browsing_history products).1.1
    = Ok {| recommendations := []; count := 0; error := None |}.
Proof.
  intros Hmiss Hrun Hsoft. unfold generate_recommendations.
  rewrite Hmiss. unfold _call_llm. rewrite Hrun.
  destruct (ParserProps.parse_soft_failures
              (fold_left String.append chunks EmptyString) products)
    as (Hnone & Hbad & Hother).
  assert (_parse_recommendation_response
            (fold_left String.append chunks EmptyString) products = Ok [])
    as ->; [| done].
  destruct Hsoft as [Hs | [He | [Hj | (v & Hv & Hl)]]]; eauto.
Qed.

(** C1: when a call returns a result without an error field, the next call
    with the same inputs returns that result, leaves the cache as it is
    and issues no call to the remote service, so that the two calls
    together issue at most one. *)
Theorem second_call_served_from_cache (self self1 : LLMService) (w w1 : World)
    (preferences browsing_history : pyval) (products : list pyval)
    (r : RecommendationResult) :
  generate self w preferences browsing_history products = (Ok r, self1, w1) →
  error r = None →
  generate self1 w1 preferences browsing_history products = (Ok r, self1, w1) ∧
  (issued w1 = issued w ∨
   issued w1 = issued w ++
     [input_data (prompt_of preferences browsing_history products) 512]).
Proof.
  unfold generate_recommendations.
  destruct (cache self !! _) as [cached|] eqn:Hkey.
  - intros [= <- <- <-] _. rewrite Hkey. split; [done | by left].
  - unfold _call_llm. destruct (replicate_run _ _) as [chunks | cause].
    + destruct (_parse_recommendation_response _ _) as [recs | e];
        [| discriminate].
      intros [= <- <- <-] _. simpl. rewrite lookup_insert_eq.
      split; [done | by right].
    + intros [= <- <- <-]. discriminate.
Qed.

(** C2: when the key is not in the cache and the remote call raises, the
    exception does not reach the caller: the result is the failure value
    with the message of the [RuntimeError], which ends with the message of
    the cause; the cache is as before; and the next call with the same
    inputs calls the remote service again. *)
Theorem failed_invocation_is_not_cached (self : LLMService) (w : World)
    (preferences browsing_history : pyval) (products : list pyval)
    (cause : string) :
  cache self !! md5_hexdigest (prompt_of preferences browsing_history products)
    = None →
  replicate_run (issued w)
    (input_data (prompt_of preferences browsing_history products) 512)
    = Fails cause →
  generate self w preferences browsing_history products
    = (Ok {| recommendations := [];
             count := 0;
             error := Some ("Error calling Replicate model: " ++ cause)%string |},
       self,
       {| issued := issued w ++
            [input_data (prompt_of preferences browsing_history products) 512] |}) ∧
  ∀ res self2 w2,
    generate self
      {| issued := issued w ++
           [input_data (prompt_of preferences browsing_history products) 512] |}
      preferences browsing_history products = (res, self2, w2) →
    issued w2 = issued w ++
      [input_data (prompt_of preferences browsing_history products) 512;
       input_data (prompt_of preferences browsing_history products) 512].
Proof.
  intros Hmiss Hfail. unfold generate_recommendations.
  rewrite Hmiss. unfold _call_llm. rewrite Hfail. split; [done |].
  intros res self2 w2. simpl. clear Hfail.
  destruct (replicate_run (issued w ++ _) _) as [chunks | cause'].
  - destruct (_parse_recommendation_response _ _);
      intros [= <- <- <-]; simpl; by rewrite <- app_assoc.
  - intros [= <- <- <-]. simpl. by rewrite <- app_assoc.
Qed.

(** C5: the prompt is a function of the preferences, the history and the
    first five products: catalogs that agree on their first five entries
    give the same prompt, character by character. *)
Theorem prompt_depends_on_first_five (preferences browsing_history : pyval)
    (products1 products2 : list pyval) :
  firstn 5 products1 = firstn 5 products2 →
  prompt_of preferences browsing_history products1
    = prompt_of preferences browsing_history products2.
Proof.
  intros Hsample. unfold _create_recommendation_prompt. by rewrite Hsample.
Qed.

(** C6: a value that [generate_recommendations] returns, on a service
    object that was created empty and used through this method only, is a
    success value, without error field and with the length of the list as
    count, or a failure value, with an error field, an empty list and a zero
    count; it is never both. *)
Theorem result_is_success_or_failure (self self' : LLMService) (w w' : World)
    (preferences browsing_history : pyval) (products : list pyval)
    (r : RecommendationResult) :
  reachable json_dumps md5_hexdigest replicate_run self w →
  generate self w preferences browsing_history products = (Ok r, self', w') →
  (is_success r ∧ ¬ is_failure r) ∨ (is_failure r ∧ ¬ is_success r).
Proof.
  intros Hreach. apply reachable_cache in Hreach.
  assert (∀ x, is_success x → ¬ is_failure x) as Hexcl.
  { intros x [Hnone _] [[msg Hsome] _]. congruence. }
  unfold generate_recommendations.
  destruct (cache self !! _) as [cached|] eqn:Hkey.
  - intros [= <- <- <-]. left. apply Hreach in Hkey. auto.
  - unfold _call_llm. destruct (replicate_run _ _) as [chunks | cause].
    + destruct (_parse_recommendation_response _ _) as [recs | e];
        [| discriminate].
      intros [= <- <- <-]. left. split; [done |]. by apply Hexcl.
    + intros [= <- <- <-]. right. split; [by repeat split; eauto |].
      intros [Hnone _]. discriminate.
Qed.

End WithEnvironment.

Lemma second_call_served_from_cache_witness :
  generate_recommendations Samples.kind_dumps Samples.checksum
    Samples.answer_once Samples.warm_service Samples.one_call
    Samples.sample_preferences Samples.sample_history Samples.sample_products
  = (Ok Samples.sample_result, Samples.warm_service, Samples.one_call).
Proof.
  apply (second_call_served_from_cache Samples.kind_dumps Samples.checksum
           Samples.answer_once __init__ Samples.warm_service Samples.no_calls
           Samples.one_call Samples.sample_preferences Samples.sample_history
           Samples.sample_products Samples.sample_result).
  - vm_compute. reflexivity.
  - reflexivity.
Defined.

Lemma failed_invocation_is_not_cached_witness :
  generate_recommendations Samples.kind_dumps Samples.checksum
    Samples.always_down __init__ Samples.no_calls Samples.sample_preferences
    Samples.sample_history Samples.sample_products
  = (Ok {| recommendations := [];
           count := 0;
           error := Some "Error calling Replicate model: connection reset" |},
     __init__,
     Samples.one_call).
Proof.
  apply (failed_invocation_is_not_cached Samples.kind_dumps Samples.checksum
           Samples.always_down __init__ Samples.no_calls
           Samples.sample_preferences Samples.sample_history
           Samples.sample_products "connection reset").
  - vm_compute. reflexivity.
  - reflexivity.
Defined.

Lemma prompt_depends_on_first_five_witness :
  _create_recommendation_prompt Samples.kind_dumps Samples.sample_preferences
    Samples.sample_history
    [Samples.prod001; Samples.prod002; Samples.prod001; Samples.prod002;
     Samples.prod001; Samples.prod002]
  = _create_recommendation_prompt Samples.kind_dumps Samples.sample_preferences
      Samples.sample_history
      [Samples.prod001; Samples.prod002; Samples.prod001; Samples.prod002;
       Samples.prod001; Samples.prod001_again; Samples.prod002].
Proof.
  apply (prompt_depends_on_first_five Samples.kind_dumps).
  reflexivity.
Defined.

Lemma result_is_success_or_failure_witness :
  (is_success Samples.sample_result ∧ ¬ is_failure Samples.sample_result) ∨
  (is_failure Samples.sample_result ∧ ¬ is_success Samples.sample_result).
Proof.
  apply (result_is_success_or_failure Samples.kind_dumps Samples.checksum
           Samples.answer_once __init__ Samples.warm_service Samples.no_calls
           Samples.one_call Samples.sample_preferences Samples.sample_history
           Samples.sample_products).
  - apply reach_init.
  - vm_compute. reflexivity.
Defined.

End PipelineProps.

(** ** The catalog filter *)

Module FilterProps.
Import Py App.
Local Open Scope list_scope.

(** A comprehension whose test raises nothing is a filter. *)
Lemma comprehension_filter (test : pyval → result bool) (f : pyval → bool)
    (l : list pyval) :
  Forall (λ p, test p = Ok (f p)) l →
  comprehension test l = Ok (List.filter f l).
Proof.
  induction 1 as [|p rest Hp _ IH]; simpl; [done |].
  rewrite Hp, IH. simpl. by destruct (f p).
Qed.

(** Comparing two [int]s as numbers compares them as integers. *)
Lemma py_lt_int (a b : Z) : py_lt (PInt a) (PInt b) = Ok (a <? b).
Proof.
  unfold py_lt. simpl. f_equal. unfold Qle_bool. simpl.
  rewrite !Z.mul_1_r. symmetry. apply Z.ltb_antisym.
Qed.

Lemma py_le_int (a b : Z) : py_le (PInt a) (PInt b) = Ok (a <=? b).
Proof.
  unfold py_le. simpl. f_equal. unfold Qle_bool. simpl.
  by rewrite !Z.mul_1_r.
Qed.

(** The test of the band 50-100 on a product with an [int] price. *)
Lemma band_test (p : pyval) :
  is_Some (int_price p) →
  (price ← get p "price" (PInt 0);
   above ← py_lt (PInt 50) price;
   if above : bool then py_le price (PInt 100) else Ok false)
  = Ok (in_band_50_100 p).
Proof.
  unfold in_band_50_100, int_price. intros [n Hn].
  destruct p as [| | | | | |d]; try discriminate. unfold get.
  destruct (dict_get d "price") as [[| |m| | | |]|]; try discriminate;
    injection Hn as <-; cbn [mbind result_bind]; rewrite py_lt_int;
    cbn [mbind result_bind]; rewrite py_le_int; by destruct (50 <? _).
Qed.

(** C8: of three Footwear products priced 40, 60 and 120, the preferences
    with the band 50-100, the category Footwear and no brand keep exactly
    the one priced 60; and with no category and no brand selected, the band
    50-100 alone keeps, in catalog order, the products whose price is above
    50 and at most 100. *)
Theorem footwear_band_keeps_sixty (d40 d60 d120 : list (string * pyval)) :
  dict_get d40 "price" = Some (PInt 40) →
  dict_get d60 "price" = Some (PInt 60) →
  dict_get d120 "price" = Some (PInt 120) →
  dict_get d40 "category" = Some (PStr "Footwear") →
  dict_get d60 "category" = Some (PStr "Footwear") →
  dict_get d120 "category" = Some (PStr "Footwear") →
  filter_products [PDict d40; PDict d60; PDict d120]
    Samples.footwear_preferences = Ok [PDict d60] ∧
  (∀ products,
     Forall (λ p, is_Some (int_price p)) products →
     filter_products products Samples.band_preferences
       = Ok (List.filter in_band_50_100 products)).
Proof.
  intros Hp40 Hp60 Hp120 _ Hc60 _. split.
  - unfold filter_products. simpl.
    rewrite Hp40, Hp60, Hp120. simpl. by rewrite Hc60.
  - intros products Hprices. unfold filter_products. simpl.
    rewrite (comprehension_filter _ in_band_50_100); [done |].
    eapply Forall_impl; [done |]. intros p Hp. by apply band_test.
Qed.

Lemma footwear_band_keeps_sixty_witness :
  filter_products
    [Samples.shoe "prod101" 40; Samples.shoe "prod102" 60;
     Samples.shoe "prod103" 120]
    Samples.footwear_preferences = Ok [Samples.shoe "prod102" 60] ∧
  filter_products
    [Samples.shoe "prod101" 50; Samples.shoe "prod102" 51;
     Samples.shoe "prod103" 100; Samples.shoe "prod104" 101]
    Samples.band_preferences
  = Ok [Samples.shoe "prod102" 51; Samples.shoe "prod103" 100].
Proof.
  destruct (footwear_band_keeps_sixty
              [("id", PStr "prod101"); ("name", PStr "Shoe");
               ("category", PStr "Footwear"); ("price", PInt 40);
               ("brand", PStr "SportsFlex")]
              [("id", PStr "prod102"); ("name", PStr "Shoe");
               ("category", PStr "Footwear"); ("price", PInt 60);
               ("brand", PStr "SportsFlex")]
              [("id", PStr "prod103"); ("name", PStr "Shoe");
               ("category", PStr "Footwear"); ("price", PInt 120);
               ("brand", PStr "SportsFlex")]) as [Hexample Hband];
    try reflexivity.
  split; [exact Hexample |].
  apply (Hband [Samples.shoe "prod101" 50; Samples.shoe "prod102" 51;
                Samples.shoe "prod103" 100; Samples.shoe "prod104" 101]).
  repeat constructor; by eexists.
Defined.

End FilterProps.

(** ** More on the catalog filter *)

Module FilterExtras.
Import Py LLMService App ParserFacts.
Local Open Scope list_scope.

(** [filter_products] is its three filters in a row. *)
Lemma filter_products_stages (products : list pyval) (preferences : pyval) :
  filter_products products preferences
  = (price_range ← get preferences "priceRange" (PStr "all");
     filtered ← price_stage price_range products;
     selected_categories ← get preferences "categories" (PList []);
     filtered ← select_stage "category" selected_categories filtered;
     selected_brands ← get preferences "brands" (PList []);
     filtered ← select_stage "brand" selected_brands filtered;
     Ok filtered).
Proof.
  reflexivity.
Qed.

Lemma sublist_Forall {A : Type} (P : A → Prop) (k l : list A) :
  sublist k l → Forall P l → Forall P k.
Proof.
  intros Hsub Hall. rewrite Forall_forall in Hall. apply Forall_forall.
  intros x Hx. apply Hall. by eapply elem_of_sublist.
Qed.

(** What a comprehension keeps is a part of the list, in order, and every
    element of it passes the test. *)
Lemma comprehension_Ok (test : pyval → result bool) (l r : list pyval) :
  comprehension test l = Ok r →
  sublist r l ∧ Forall (λ p, test p = Ok true) r.
Proof.
  revert r. induction l as [|p rest IH]; simpl; intros r.
  - intros [= <-]. split; constructor.
  - intros H. apply bind_Ok in H as (keep & Hkeep & H).
    apply bind_Ok in H as (kept & Hkept & [= <-]).
    destruct (IH kept Hkept) as [Hsub Hall].
    destruct keep; split; try done; by constructor.
Qed.

(** A comprehension keeps a list of elements that pass the test. *)
Lemma comprehension_pass (test : pyval → result bool) (r : list pyval) :
  Forall (λ p, test p = Ok true) r → comprehension test r = Ok r.
Proof.
  induction 1 as [|p rest Hp _ IH]; simpl; [done |]. by rewrite Hp, IH.
Qed.

Lemma comprehension_filter_like (test : pyval → result bool) :
  filter_like (comprehension test).
Proof.
  intros l r H. apply comprehension_Ok in H as [Hsub Hall].
  split; [done |]. intros r' Hr'. apply comprehension_pass.
  by eapply sublist_Forall.
Qed.

Lemma Ok_filter_like : filter_like Ok.
Proof.
  intros l r [= <-]. split; [done |]. by intros r' _.
Qed.

Lemma price_stage_filter_like (price_range : pyval) :
  filter_like (price_stage price_range).
Proof.
  unfold price_stage.
  destruct (negb _); [| apply Ok_filter_like].
  repeat (destruct (py_eq price_range _); [apply comprehension_filter_like |]).
  apply Ok_filter_like.
Qed.

Lemma select_stage_filter_like (key : string) (selected : pyval) :
  filter_like (select_stage key selected).
Proof.
  unfold select_stage.
  destruct (truthy selected);
    [apply comprehension_filter_like | apply Ok_filter_like].
Qed.

(** The three results of a run of [filter_products] that ends without an
    exception. *)
Lemma filter_products_Ok (products : list pyval) (preferences : pyval)
    (r : list pyval) :
  filter_products products preferences = Ok r →
  ∃ d r1 r2,
    preferences = PDict d ∧
    price_stage (LLMService.field preferences "priceRange" (PStr "all"))
      products = Ok r1 ∧
    select_stage "category"
      (LLMService.field preferences "categories" (PList [])) r1 = Ok r2 ∧
    select_stage "brand"
      (LLMService.field preferences "brands" (PList [])) r2 = Ok r.
Proof.
  rewrite filter_products_stages. intros H.
  apply bind_Ok in H as (pr & Hpr & H). apply get_Ok in Hpr as [Hd ->].
  apply bind_Ok in H as (r1 & H1 & H).
  apply bind_Ok in H as (cs & Hcs & H). apply get_Ok in Hcs as [_ ->].
  apply bind_Ok in H as (r2 & H2 & H).
  apply bind_Ok in H as (bs & Hbs & H). apply get_Ok in Hbs as [_ ->].
  apply bind_Ok in H as (r3 & H3 & [= <-]).
  destruct preferences as [| | | | | |d]; try discriminate.
  by exists d, r1, r2.
Qed.

(** X1: what [filter_products] returns is a part of the catalog, in the
    order of the catalog: no product is added, repeated or moved. *)
Theorem filter_products_sublist (products : list pyval) (preferences : pyval)
    (r : list pyval) :
  filter_products products preferences = Ok r → sublist r products.
Proof.
  intros H. apply filter_products_Ok in H as (d & r1 & r2 & _ & H1 & H2 & H3).
  apply price_stage_filter_like in H1 as [H1 _].
  apply select_stage_filter_like in H2 as [H2 _].
  apply select_stage_filter_like in H3 as [H3 _].
  by repeat (etrans; [done |]).
Qed.

Lemma filter_products_sublist_witness :
  sublist [Samples.shoe "prod102" 60]
    [Samples.shoe "prod101" 40; Samples.shoe "prod102" 60;
     Samples.shoe "prod103" 120].
Proof.
  apply (filter_products_sublist _ Samples.footwear_preferences).
  reflexivity.
Defined.

(** X2: filtering is idempotent: the products that [filter_products] has
    kept are all kept, without an exception, when they are filtered again
    with the same preferences. *)
Theorem filter_products_idempotent (products : list pyval) (preferences : pyval)
    (r : list pyval) :
  filter_products products preferences = Ok r →
  filter_products r preferences = Ok r.
Proof.
  intros H. apply filter_products_Ok in H as (d & r1 & r2 & -> & H1 & H2 & H3).
  apply price_stage_filter_like in H1 as [_ H1].
  apply select_stage_filter_like in H2 as [Hs2 H2].
  apply select_stage_filter_like in H3 as [Hs3 H3].
  rewrite filter_products_stages. simpl. simpl in H1, H2, H3.
  rewrite H1 by (by etrans). simpl.
  rewrite H2 by done. simpl.
  by rewrite H3.
Qed.

Lemma filter_products_idempotent_witness :
  filter_products [Samples.shoe "prod102" 60] Samples.footwear_preferences
  = Ok [Samples.shoe "prod102" 60].
Proof.
  apply (filter_products_idempotent
           [Samples.shoe "prod101" 40; Samples.shoe "prod102" 60;
            Samples.shoe "prod103" 120]).
  reflexivity.
Defined.

(** X3: preferences whose price range is none of 0-50, 50-100 and 100+
    (it is all, or missing, or unknown) and whose categories and brands are
    empty or missing filter nothing: the catalog comes back as it is,
    whatever its products are. *)
Theorem no_selection_keeps_catalog (products : list pyval) (preferences : pyval) :
  is_dict preferences = true →
  py_eq (LLMService.field preferences "priceRange" (PStr "all")) (PStr "0-50")
    = false →
  py_eq (LLMService.field preferences "priceRange" (PStr "all")) (PStr "50-100")
    = false →
  py_eq (LLMService.field preferences "priceRange" (PStr "all")) (PStr "100+")
    = false →
  truthy (LLMService.field preferences "categories" (PList [])) = false →
  truthy (LLMService.field preferences "brands" (PList [])) = false →
  filter_products products preferences = Ok products.
Proof.
  intros Hd H1 H2 H3 Hc Hb. rewrite filter_products_stages.
  rewrite !get_dict by done. simpl.
  unfold price_stage, select_stage. rewrite H1, H2, H3, Hc, Hb.
  by destruct (negb _).
Qed.

Lemma no_selection_keeps_catalog_witness :
  filter_products [PInt 3; Samples.prod001] (PDict []) = Ok [PInt 3; Samples.prod001] ∧
  filter_products [PInt 3; Samples.prod001] (band_only "0-100")
    = Ok [PInt 3; Samples.prod001].
Proof.
  split;
    apply (no_selection_keeps_catalog [PInt 3; Samples.prod001]); reflexivity.
Defined.

(** The tests of the ranges 0-50 and 100+ on a product with an [int]
    price. *)
Lemma low_test (p : pyval) :
  is_Some (int_price p) →
  (price ← get p "price" (PInt 0); py_le price (PInt 50)) = Ok (low_price p).
Proof.
  unfold low_price, int_price. intros [n Hn].
  destruct p as [| | | | | |d]; try discriminate. unfold get.
  destruct (dict_get d "price") as [[| |m| | | |]|]; try discriminate;
    injection Hn as <-; cbn [mbind result_bind]; apply FilterProps.py_le_int.
Qed.

Lemma high_test (p : pyval) :
  is_Some (int_price p) →
  (price ← get p "price" (PInt 0); py_lt (PInt 100) price) = Ok (high_price p).
Proof.
  unfold high_price, int_price. intros [n Hn].
  destruct p as [| | | | | |d]; try discriminate. unfold get.
  destruct (dict_get d "price") as [[| |m| | | |]|]; try discriminate;
    injection Hn as <-; cbn [mbind result_bind]; apply FilterProps.py_lt_int.
Qed.

(** X4: on a catalog of products with [int] prices (a missing price counts
    as 0), the range 0-50 keeps the prices of 50 at most, the range 50-100
    those above 50 and of 100 at most, the range 100+ those above 100, and
    the three results together are the catalog: each product is in exactly
    one of them. *)
Theorem price_ranges_partition (products : list pyval) :
  Forall (λ p, is_Some (int_price p)) products →
  filter_products products (band_only "0-50")
    = Ok (List.filter low_price products) ∧
  filter_products products (band_only "50-100")
    = Ok (List.filter in_band_50_100 products) ∧
  filter_products products (band_only "100+")
    = Ok (List.filter high_price products) ∧
  List.filter low_price products ++ List.filter in_band_50_100 products ++
    List.filter high_price products ≡ₚ products.
Proof.
  intros Hprices. repeat split.
  - unfold filter_products. simpl.
    rewrite (FilterProps.comprehension_filter _ low_price); [done |].
    eapply Forall_impl; [done |]. intros p Hp. by apply low_test.
  - unfold filter_products. simpl.
    rewrite (FilterProps.comprehension_filter _ in_band_50_100); [done |].
    eapply Forall_impl; [done |]. intros p Hp. by apply FilterProps.band_test.
  - unfold filter_products. simpl.
    rewrite (FilterProps.comprehension_filter _ high_price); [done |].
    eapply Forall_impl; [done |]. intros p Hp. by apply high_test.
  - induction Hprices as [|p rest [n Hn] _ IH]; simpl; [done |].
    unfold low_price, in_band_50_100, high_price. rewrite Hn.
    destruct (n <=? 50) eqn:Hlow; [| destruct (n <=? 100) eqn:Hmid].
    + replace (50 <? n) with false by lia.
      replace (100 <? n) with false by lia. simpl. by f_equiv.
    + replace (50 <? n) with true by lia.
      replace (100 <? n) with false by lia. simpl.
      rewrite <- Permutation_middle. by f_equiv.
    + replace (50 <? n) with true by lia.
      replace (100 <? n) with true by lia. simpl.
      rewrite app_assoc, <- Permutation_middle, <- app_assoc. by f_equiv.
Qed.

Lemma price_ranges_partition_witness :
  filter_products
    [Samples.shoe "a" 50; Samples.shoe "b" 101; Samples.shoe "c" 100;
     Samples.shoe "d" (-5); PDict [("id", PStr "e")]]
    (band_only "0-50")
  = Ok [Samples.shoe "a" 50; Samples.shoe "d" (-5); PDict [("id", PStr "e")]].
Proof.
  apply (price_ranges_partition
           [Samples.shoe "a" 50; Samples.shoe "b" 101; Samples.shoe "c" 100;
            Samples.shoe "d" (-5); PDict [("id", PStr "e")]]).
  repeat constructor; by eexists.
Defined.

(** A comprehension stops at the first element on which the test raises. *)
Lemma comprehension_raises (test : pyval → result bool) (pre post : list pyval)
    (p : pyval) (e : exn) :
  Forall (λ q, ∃ b, test q = Ok b) pre →
  test p = Raise e →
  comprehension test (pre ++ p :: post) = Raise e.
Proof.
  intros Hpre Hp. induction Hpre as [|q pre [b Hq] _ IH]; simpl.
  - by rewrite Hp.
  - by rewrite Hq, IH.
Qed.

(** X5: under a price range 0-50, 50-100 or 100+, a product whose price is
    not a number (a string, null, a list) makes [filter_products] raise
    [TypeError], whatever comes after it in the catalog and whatever the
    categories and brands are; the products before it have numbers as
    prices. *)
Theorem non_numeric_price_raises (pre post : list pyval)
    (d preferences : list (string * pyval)) (v : pyval) (range : string) :
  range = "0-50" ∨ range = "50-100" ∨ range = "100+" →
  dict_get preferences "priceRange" = Some (PStr range) →
  Forall (λ q, is_dict q = true ∧
               is_Some (as_number (LLMService.field q "price" (PInt 0)))) pre →
  dict_get d "price" = Some v →
  as_number v = None →
  filter_products (pre ++ PDict d :: post) (PDict preferences) = Raise TypeError.
Proof.
  intros Hrange Hpr Hpre Hv Hnum. rewrite filter_products_stages. simpl.
  rewrite Hpr. simpl.
  assert (∀ q, is_dict q = true ∧
               is_Some (as_number (LLMService.field q "price" (PInt 0))) →
               ∃ x, get q "price" (PInt 0)
                      = Ok (LLMService.field q "price" (PInt 0)) ∧
                    as_number (LLMService.field q "price" (PInt 0)) = Some x)
    as Hq.
  { intros q [Hd [x Hx]]. exists x. by rewrite get_dict. }
  assert (price_stage (PStr range) (pre ++ PDict d :: post) = Raise TypeError)
    as ->; [| done].
  destruct Hrange as [-> | [-> | ->]]; unfold price_stage; simpl;
    apply comprehension_raises.
  - eapply Forall_impl; [done |]. intros q Hqq.
    destruct (Hq q Hqq) as (x & -> & Hx). simpl.
    unfold py_le. rewrite Hx. simpl. eauto.
  - simpl. rewrite Hv. simpl. unfold py_le. by rewrite Hnum.
  - eapply Forall_impl; [done |]. intros q Hqq.
    destruct (Hq q Hqq) as (x & -> & Hx). simpl.
    unfold py_lt, py_le. rewrite Hx. simpl.
    case_match; eauto.
  - simpl. rewrite Hv. simpl. unfold py_lt. by rewrite Hnum.
  - eapply Forall_impl; [done |]. intros q Hqq.
    destruct (Hq q Hqq) as (x & -> & Hx). simpl.
    unfold py_lt. rewrite Hx. simpl. eauto.
  - simpl. rewrite Hv. simpl. unfold py_lt. by rewrite Hnum.
Qed.

Lemma non_numeric_price_raises_witness :
  filter_products
    [Samples.prod001; PDict [("id", PStr "p9"); ("price", PStr "60")];
     Samples.prod002]
    Samples.footwear_preferences = Raise TypeError.
Proof.
  apply (non_numeric_price_raises [Samples.prod001] [Samples.prod002]
           [("id", PStr "p9"); ("price", PStr "60")] _ (PStr "60") "50-100").
  - right. left. reflexivity.
  - reflexivity.
  - repeat constructor. by eexists.
  - reflexivity.
  - reflexivity.
Defined.





End FilterExtras.

(** ** The browsing history *)

Module HistoryExtras.
Import Py LLMService App ParserFacts.
Local Open Scope list_scope.

Lemma existsb_snoc {A : Type} (f : A → bool) (l : list A) (x : A) :
  existsb f (l ++ [x]) = existsb f l || f x.
Proof.
  rewrite existsb_app. simpl. by rewrite orb_false_r.
Qed.

(** An id that no entry of the history is equal to can go last. *)
Lemma no_repeat_snoc (history : list pyval) (id : pyval) :
  existsb (py_eq id) history = false →
  no_repeat history = true →
  no_repeat (history ++ [id]) = true.
Proof.
  induction history as [|x rest IH]; simpl; [done |].
  intros Hid Hno. apply orb_false_iff in Hid as [Hx Hid].
  apply andb_true_iff in Hno as [Hx' Hno].
  rewrite existsb_snoc, Hx, orb_false_r, Hx'. simpl. by apply IH.
Qed.

(** X7: a click on "View" never removes or moves an entry of the browsing
    history and adds one entry at most, at the end; and a history without
    repeated entries stays without repeated entries, whether the handler
    ends with an exception or not. *)
Theorem on_view_keeps_history (browsing_history history' : list pyval)
    (product : pyval) (res : result unit) :
  on_view browsing_history product = (res, history') →
  browsing_history `prefix_of` history' ∧
  (length history' ≤ S (length browsing_history))%nat ∧
  (no_repeat browsing_history = true → no_repeat history' = true).
Proof.
  unfold on_view. destruct (subscript product "id") as [id | e].
  - destruct (existsb (py_eq id) browsing_history) eqn:Hin; simpl;
      destruct (subscript product "name"); intros [= _ <-];
      repeat split; try done; try lia.
    + by apply prefix_app_r.
    + rewrite length_app. simpl. lia.
    + by apply no_repeat_snoc.
    + by apply prefix_app_r.
    + rewrite length_app. simpl. lia.
    + by apply no_repeat_snoc.
  - intros [= _ <-]. repeat split; try done. lia.
Qed.

Lemma on_view_keeps_history_witness :
  [PStr "prod002"] `prefix_of` [PStr "prod002"; PStr "prod001"] ∧
  (length [PStr "prod002"; PStr "prod001"] ≤ S (length [PStr "prod002"]))%nat ∧
  (no_repeat [PStr "prod002"] = true →
   no_repeat [PStr "prod002"; PStr "prod001"] = true).
Proof.
  apply (on_view_keeps_history [PStr "prod002"] _ Samples.prod001 (Ok tt)).
  reflexivity.
Defined.

(** X8: a second click on "View" of the same product changes nothing: the
    history after two clicks is the history after one.  (The id is equal to
    itself, as every id but NaN is.) *)
Theorem on_view_twice (browsing_history : list pyval) (product id : pyval) :
  subscript product "id" = Ok id →
  py_eq id id = true →
  (on_view (on_view browsing_history product).2 product).2
    = (on_view browsing_history product).2.
Proof.
  intros Hid Hrefl. unfold on_view. rewrite Hid.
  destruct (existsb (py_eq id) browsing_history) eqn:Hin;
    destruct (subscript product "name"); simpl;
    rewrite ?Hin, ?existsb_snoc, ?Hrefl, ?orb_true_r; done.
Qed.

Lemma on_view_twice_witness :
  (on_view (on_view [PStr "prod002"] Samples.prod001).2 Samples.prod001).2
    = [PStr "prod002"; PStr "prod001"].
Proof.
  rewrite (on_view_twice [PStr "prod002"] Samples.prod001 (PStr "prod001"));
    reflexivity.
Defined.

Lemma existsb_Permutation {A : Type} (f : A → bool) (l1 l2 : list A) :
  l1 ≡ₚ l2 → existsb f l1 = existsb f l2.
Proof.
  induction 1 as [| x l1 l2 _ IH | x y l | l1 l2 l3 _ IH1 _ IH2]; simpl.
  - done.
  - by rewrite IH.
  - by destruct (f x), (f y).
  - by rewrite IH1.
Qed.

Lemma comprehension_ext (test1 test2 : pyval → result bool) (l : list pyval) :
  (∀ p, test1 p = test2 p) → comprehension test1 l = comprehension test2 l.
Proof.
  intros Hext. induction l as [|p l IH]; simpl; [done |]. by rewrite Hext, IH.
Qed.

(** X9: the products of the history are shown in the order of the catalog,
    not in the order in which they were viewed: the list is a part of the
    catalog, in catalog order, and two histories with the same entries in
    another order give the same list (or the same exception). *)
Theorem history_products_in_catalog_order
    (all_products history1 history2 : list pyval) :
  history1 ≡ₚ history2 →
  history_products all_products history1
    = history_products all_products history2 ∧
  ∀ r, history_products all_products history1 = Ok r → sublist r all_products.
Proof.
  intros Hperm. split.
  - unfold history_products. apply comprehension_ext. intros p.
    destruct (subscript p "id") as [id | e]; simpl; [| done].
    f_equal. by apply existsb_Permutation.
  - intros r Hr. by apply FilterExtras.comprehension_Ok in Hr as [Hsub _].
Qed.

Lemma history_products_in_catalog_order_witness :
  history_products [Samples.prod001; Samples.prod002]
    [PStr "prod002"; PStr "prod001"]
  = Ok [Samples.prod001; Samples.prod002].
Proof.
  destruct (history_products_in_catalog_order
              [Samples.prod001; Samples.prod002]
              [PStr "prod002"; PStr "prod001"]
              [PStr "prod001"; PStr "prod002"]) as [-> _].
  - apply Permutation_swap.
  - reflexivity.
Defined.

End HistoryExtras.

(** ** Facts about strings *)

Module TextFacts.
Import Py.
Local Open Scope string_scope.
Local Open Scope Z_scope.

Lemma append_cons (a : ascii) (s t : string) :
  String a s ++ t = String a (s ++ t).
Proof.
  reflexivity.
Qed.

Lemma append_nil_l (t : string) : EmptyString ++ t = t.
Proof.
  reflexivity.
Qed.

(** Unfolds the concatenations whose first part is known. *)
Ltac append_step := rewrite ?append_cons, ?append_nil_l in *; simpl in *.

Lemma append_assoc (s t u : string) : (s ++ t) ++ u = s ++ (t ++ u).
Proof.
  induction s as [|a s IH]; append_step; [done |]. by f_equal.
Qed.

Lemma append_nil_r (s : string) : s ++ EmptyString = s.
Proof.
  induction s as [|a s IH]; append_step; [done |]. by f_equal.
Qed.

Lemma append_length (s t : string) :
  String.length (s ++ t) = (String.length s + String.length t)%nat.
Proof.
  induction s as [|a s IH]; append_step; [done |]. by f_equal.
Qed.

(** An index that [find] or [rfind] returns is -1 or within the string. *)
Lemma str_find_bounds (s : string) (c : ascii) :
  str_find s c = -1 ∨ 0 ≤ str_find s c < Z.of_nat (String.length s).
Proof.
  induction s as [|a s IH]; simpl; [by left |].
  destruct (Ascii.eqb a c); [right; lia |].
  destruct (str_find s c =? -1) eqn:Hi; [by left | right; lia].
Qed.

Lemma str_rfind_bounds (s : string) (c : ascii) :
  str_rfind s c = -1 ∨ 0 ≤ str_rfind s c < Z.of_nat (String.length s).
Proof.
  induction s as [|a s IH]; simpl; [by left |].
  destruct (str_rfind s c =? -1) eqn:Hi; [| right; lia].
  destruct (Ascii.eqb a c); [right; lia | by left].
Qed.

(** The first occurrence in a concatenation. *)
Lemma str_find_app_l (s t : string) (c : ascii) :
  str_find s c ≠ -1 → str_find (s ++ t) c = str_find s c.
Proof.
  induction s as [|a s IH]; append_step; [done |].
  destruct (Ascii.eqb a c); [done |].
  destruct (str_find s c =? -1) eqn:Hi; [done |].
  intros _. apply Z.eqb_neq in Hi. rewrite IH by done.
  apply Z.eqb_neq in Hi. by rewrite Hi.
Qed.

Lemma str_find_app_r (s t : string) (c : ascii) :
  str_find s c = -1 → str_find t c ≠ -1 →
  str_find (s ++ t) c = Z.of_nat (String.length s) + str_find t c.
Proof.
  intros Hs Ht. induction s as [|a s IH]; append_step; [done |].
  destruct (Ascii.eqb a c); [done |].
  destruct (str_find_bounds s c) as [Hb | Hb].
  2: { destruct (str_find s c =? -1) eqn:Hi; lia. }
  rewrite Hb in *. simpl in *. rewrite IH by done.
  destruct (str_find_bounds t c) as [? | ?]; [done |].
  destruct (_ =? -1) eqn:Hj; lia.
Qed.

(** The last occurrence in a concatenation. *)
Lemma str_rfind_app_l (s t : string) (c : ascii) :
  str_rfind t c = -1 → str_rfind (s ++ t) c = str_rfind s c.
Proof.
  intros Ht. induction s as [|a s IH]; append_step; [done |]. by rewrite IH.
Qed.

Lemma str_rfind_app_r (s t : string) (c : ascii) :
  str_rfind t c ≠ -1 →
  str_rfind (s ++ t) c = Z.of_nat (String.length s) + str_rfind t c.
Proof.
  intros Ht. induction s as [|a s IH]; append_step; [done |].
  rewrite IH. destruct (str_rfind_bounds t c) as [? | ?]; [done |].
  destruct (_ =? -1) eqn:Hj; lia.
Qed.

(** A substring of a concatenation that lies in one of its parts. *)
Lemma substring_skip (s t : string) (n m : nat) :
  substring (String.length s + n) m (s ++ t) = substring n m t.
Proof.
  induction s as [|a s IH]; append_step; done.
Qed.

Lemma substring_app_l (s t : string) (n m : nat) :
  (n + m ≤ String.length s)%nat →
  substring n m (s ++ t) = substring n m s.
Proof.
  revert n m. induction s as [|a s IH]; intros n m Hlen; append_step.
  - assert (n = 0%nat ∧ m = 0%nat) as [-> ->] by lia. by destruct t.
  - destruct n as [|n]; [| apply IH; lia].
    destruct m as [|m]; [done |]. f_equal.
    apply (IH 0%nat m). lia.
Qed.

(** [rstrip] leaves alone a text that ends with what it leaves alone. *)
Lemma rstrip_app (s t : string) :
  rstrip t = t → t ≠ EmptyString →
  rstrip (s ++ t) = s ++ t ∧ s ++ t ≠ EmptyString.
Proof.
  intros Ht Hne. induction s as [|a s [IH IHne]]; append_step; [done |].
  rewrite IH. split; [| done]. by destruct (s ++ t).
Qed.

Lemma rstrip_keeps_end (s t : string) :
  rstrip t = t ∧ t ≠ EmptyString →
  rstrip (s ++ t) = s ++ t ∧ s ++ t ≠ EmptyString.
Proof.
  intros [Ht Hne]. by apply rstrip_app.
Qed.

(** [lstrip] leaves alone a text that starts with another character than
    white space. *)
Lemma lstrip_app (a : ascii) (s t : string) :
  is_space a = false → lstrip (String a s ++ t) = String a s ++ t.
Proof.
  intros Ha. rewrite append_cons. cbn [lstrip]. by rewrite Ha.
Qed.

(** Reading the chunks one after the other gives their concatenation. *)
Lemma fold_left_append (chunks : list string) (acc : string) :
  fold_left String.append chunks acc
    = acc ++ fold_right String.append EmptyString chunks.
Proof.
  revert acc. induction chunks as [|c chunks IH]; intros acc; simpl.
  - by rewrite append_nil_r.
  - by rewrite IH, append_assoc.
Qed.

End TextFacts.

(** ** More on the response parser and on the lookup by id *)

Module ParserExtras.
Import Py LLMService ParserFacts ProductService.
Local Open Scope list_scope.

(** X10: prose around the array does not matter: a text before the first
    opening bracket and a text after the last closing bracket can be added
    or removed without any change of what the parser returns or raises. *)
Theorem prose_around_array_is_ignored (before text after : string)
    (products : list pyval) :
  str_find before "["%char = -1 →
  str_rfind after "]"%char = -1 →
  str_find text "["%char ≠ -1 →
  str_rfind text "]"%char ≠ -1 →
  _parse_recommendation_response (before ++ text ++ after)%string products
    = _parse_recommendation_response text products.
Proof.
  intros Hbefore Hafter Hopen Hclose.
  unfold _parse_recommendation_response.
  rewrite TextFacts.str_find_app_r
    by (by rewrite ?TextFacts.str_find_app_l by done).
  rewrite TextFacts.str_find_app_l by done.
  rewrite TextFacts.str_rfind_app_r
    by (by rewrite TextFacts.str_rfind_app_l by done).
  rewrite TextFacts.str_rfind_app_l by done.
  destruct (TextFacts.str_find_bounds text "["%char) as [? | Ha]; [done |].
  destruct (TextFacts.str_rfind_bounds text "]"%char) as [? | Hb]; [done |].
  generalize dependent (str_find text "["%char). intros a Hopen Ha.
  generalize dependent (str_rfind text "]"%char). intros b Hclose Hb.
  assert ((Z.of_nat (String.length before) + a =? -1) = false) as ->
    by (apply Z.eqb_neq; lia).
  assert ((Z.of_nat (String.length before) + b =? -1) = false) as ->
    by (apply Z.eqb_neq; lia).
  assert ((a =? -1) = false) as -> by (by apply Z.eqb_neq).
  assert ((b =? -1) = false) as -> by (by apply Z.eqb_neq).
  simpl. unfold slice.
  replace (Z.to_nat (Z.of_nat (String.length before) + a))
    with (String.length before + Z.to_nat a)%nat by lia.
  replace (Z.of_nat (String.length before) + b + 1
           - (Z.of_nat (String.length before) + a)) with (b + 1 - a) by lia.
  rewrite TextFacts.substring_skip, TextFacts.substring_app_l by lia.
  done.
Qed.

Lemma prose_around_array_is_ignored_witness :
  _parse_recommendation_response Samples.picks_text Samples.sample_products
  = _parse_recommendation_response
      (dq "[{'id':'prod001','explanation':'Matches running preference','confidence_score':8}]")
      Samples.sample_products.
Proof.
  apply (prose_around_array_is_ignored "Sure! Here are my picks: "
           (dq "[{'id':'prod001','explanation':'Matches running preference','confidence_score':8}]")
           " Hope this helps!" Samples.sample_products);
    vm_compute; congruence.
Defined.

(** The loop stops with [AttributeError] at the first element that is not
    an object. *)
Lemma parse_items_non_object (products parsed : list pyval)
    (acc : list Recommendation) :
  Forall (λ p, has_id p = true) products →
  Exists (λ item, is_dict item = false) parsed →
  parse_items products parsed acc = Raise AttributeError.
Proof.
  intros Hcat Hex. revert acc.
  induction parsed as [|item rest IH]; intros acc; [by inversion Hex |].
  simpl. destruct (is_dict item) eqn:Hd.
  - rewrite parse_item_total by done. simpl. apply IH.
    inversion Hex as [? ? Hitem | ? ? Hrest]; subst; [congruence | done].
  - unfold parse_item. by destruct item.
Qed.

(** X11: one array element that is not an object (a number, a string, null,
    an array) makes the parser raise [AttributeError] for the whole answer,
    wherever the element stands: the recommendations of the other elements
    are lost.  The products of the catalog carry an id. *)
Theorem non_object_element_loses_all (raw_text : string)
    (parsed products : list pyval) :
  carries_array raw_text parsed →
  Forall (λ p, has_id p = true) products →
  Exists (λ item, is_dict item = false) parsed →
  _parse_recommendation_response raw_text products = Raise AttributeError.
Proof.
  intros Harr Hcat Hex. rewrite (parse_response_array _ _ _ Harr).
  by apply parse_items_non_object.
Qed.

Lemma non_object_element_loses_all_witness :
  _parse_recommendation_response
    (dq "[{'id': 'prod001'}, 'prod002']") [Samples.prod001; Samples.prod002]
  = Raise AttributeError.
Proof.
  apply (non_object_element_loses_all _
           [PDict [("id", PStr "prod001")]; PStr "prod002"]).
  - repeat split; vm_compute; congruence.
  - repeat constructor.
  - apply Exists_cons_tl. by apply Exists_cons_hd.
Defined.

(** The generator expression raises what the first unreadable id raises. *)
Lemma next_product_raises (pre post : list pyval) (pid p : pyval) (e : exn) :
  Forall (λ q, has_id q = true ∧ id_is pid q = false) pre →
  subscript p "id" = Raise e →
  next_product (pre ++ p :: post) pid = Raise e.
Proof.
  intros Hpre Hp. induction Hpre as [|q pre [Hq Hne] _ IH]; simpl.
  - by rewrite Hp.
  - unfold has_id in Hq. unfold id_is in Hne.
    destruct (subscript q "id"); [| done]. simpl. by rewrite Hne.
Qed.

(** X12: a product of the catalog whose id cannot be read (a dict without
    the key id raises [KeyError], a product that is not a dict raises
    [TypeError]) makes the parser raise as soon as the search for the id
    of the first array element reaches it, that is, when no product before
    it has that id. *)
Theorem unreadable_product_id_raises (raw_text : string)
    (item : pyval) (rest pre post : list pyval) (p : pyval) (e : exn) :
  carries_array raw_text (item :: rest) →
  is_dict item = true →
  Forall (λ q, has_id q = true ∧ id_is (field item "id" PNone) q = false) pre →
  subscript p "id" = Raise e →
  _parse_recommendation_response raw_text (pre ++ p :: post) = Raise e.
Proof.
  intros Harr Hd Hpre Hp. rewrite (parse_response_array _ _ _ Harr).
  simpl. unfold parse_item. rewrite !get_dict by done. simpl.
  by rewrite (next_product_raises _ _ _ _ e).
Qed.

Lemma unreadable_product_id_raises_witness :
  _parse_recommendation_response Samples.picks_text
    [Samples.prod002; PDict [("name", PStr "No id")]; Samples.prod001]
  = Raise KeyError.
Proof.
  apply (unreadable_product_id_raises Samples.picks_text
           (PDict [("id", PStr "prod001");
                   ("explanation", PStr "Matches running preference");
                   ("confidence_score", PInt 8)])
           [] [Samples.prod002] [Samples.prod001]
           (PDict [("name", PStr "No id")]) KeyError).
  - repeat split; vm_compute; congruence.
  - reflexivity.
  - repeat constructor.
  - reflexivity.
Defined.

(** X13: on a catalog whose products all carry an id, the lookup of the
    product service and the lookup of the parser give the same answer for
    every id. *)
Theorem lookups_agree (self : ProductService) (pid : pyval) :
  Forall (λ p, has_id p = true) (ProductService.products self) →
  get_product_by_id self pid = next_product (ProductService.products self) pid.
Proof.
  unfold get_product_by_id.
  induction 1 as [|p rest Hp _ IH]; simpl; [done |].
  unfold has_id, subscript in Hp. unfold get, subscript.
  destruct p as [| | | | | |d]; try discriminate.
  destruct (dict_get d "id"); [| done]. simpl. by rewrite IH.
Qed.

Lemma lookups_agree_witness :
  get_product_by_id
    {| data_path := "data/products.json";
       ProductService.products := [Samples.prod001; Samples.prod002] |}
    (PStr "prod002")
  = next_product [Samples.prod001; Samples.prod002] (PStr "prod002").
Proof.
  apply (lookups_agree
           {| data_path := "data/products.json";
              ProductService.products := [Samples.prod001; Samples.prod002] |}).
  repeat constructor.
Defined.

(** X14: where the two lookups differ: a product without the key id is
    passed over by [get_product_by_id], which reads it with [get] and goes
    on to the products after it, while the parser, which reads it with a
    subscript, raises [KeyError]. *)
Theorem product_without_id_is_passed_over (self : ProductService)
    (d : list (string * pyval)) (rest : list pyval) (pid : pyval) :
  ProductService.products self = PDict d :: rest →
  dict_get d "id" = None →
  py_eq PNone pid = false →
  get_product_by_id self pid
    = get_product_by_id
        {| data_path := data_path self; ProductService.products := rest |} pid ∧
  next_product (ProductService.products self) pid = Raise KeyError.
Proof.
  intros Hproducts Hd Hpid. unfold get_product_by_id. rewrite Hproducts.
  cbn [first_with_id next_product get subscript ProductService.products].
  rewrite Hd. cbn [mbind result_bind]. by rewrite Hpid.
Qed.

Lemma product_without_id_is_passed_over_witness :
  get_product_by_id
    {| data_path := "data/products.json";
       ProductService.products :=
         [PDict [("name", PStr "No id")]; Samples.prod001] |}
    (PStr "prod001")
  = get_product_by_id
      {| data_path := "data/products.json";
         ProductService.products := [Samples.prod001] |}
      (PStr "prod001") ∧
  next_product [PDict [("name", PStr "No id")]; Samples.prod001]
    (PStr "prod001") = Raise KeyError.
Proof.
  apply (product_without_id_is_passed_over
           {| data_path := "data/products.json";
              ProductService.products :=
                [PDict [("name", PStr "No id")]; Samples.prod001] |}
           [("name", PStr "No id")] [Samples.prod001] (PStr "prod001"));
    reflexivity.
Defined.

(** The loop adds to the list it starts with what it adds to the empty
    list. *)
Lemma parse_item_acc (products : list pyval) (item : pyval)
    (acc : list Recommendation) :
  parse_item products item acc
    = parse_item products item [] ≫= λ r, Ok (acc ++ r).
Proof.
  unfold parse_item.
  destruct (get item "id" PNone) as [pid|]; [| done]. simpl.
  destruct (get item "explanation" _) as [ex|]; [| done]. simpl.
  destruct (get item "confidence_score" _) as [sc|]; [| done]. simpl.
  destruct (next_product products pid) as [pd|]; [| done]. simpl.
  destruct (truthy pd); simpl; [done | by rewrite app_nil_r].
Qed.

Lemma parse_items_acc (products parsed : list pyval)
    (acc : list Recommendation) :
  parse_items products parsed acc
    = parse_items products parsed [] ≫= λ r, Ok (acc ++ r).
Proof.
  revert acc. induction parsed as [|item rest IH]; intros acc; simpl.
  - by rewrite app_nil_r.
  - rewrite parse_item_acc.
    destruct (parse_item products item []) as [r1|]; simpl; [| done].
    rewrite IH, (IH r1).
    destruct (parse_items products rest []) as [r2|]; simpl; [| done].
    by rewrite app_assoc.
Qed.

(** X15: the parser treats the array elements one by one: the
    recommendations of two arrays put end to end are the recommendations
    of the first followed by those of the second.  No element changes
    what another one gives: in particular an id that occurs twice is
    recommended twice. *)
Theorem parse_items_concat (products parsed1 parsed2 : list pyval)
    (recs1 recs2 : list Recommendation) :
  parse_items products parsed1 [] = Ok recs1 →
  parse_items products parsed2 [] = Ok recs2 →
  parse_items products (parsed1 ++ parsed2) [] = Ok (recs1 ++ recs2).
Proof.
  intros H1 H2. rewrite parse_items_app, H1. simpl.
  by rewrite parse_items_acc, H2.
Qed.

Lemma parse_items_concat_witness :
  parse_items [Samples.prod001; Samples.prod002]
    (Samples.reversed_array ++ Samples.reversed_array) []
  = Ok (Samples.reversed_recommendations ++ Samples.reversed_recommendations).
Proof.
  apply (parse_items_concat [Samples.prod001; Samples.prod002]);
    reflexivity.
Defined.

End ParserExtras.

(** ** More on the pipeline *)

Module PipelineExtras.
Import Py LLMService.
Local Open Scope list_scope.

Section WithEnvironment.

Variable json_dumps : pyval → string.
Variable md5_hexdigest : string → string.
Variable replicate_run : list run_input → run_input → stream_outcome.

Local Abbreviation prompt_of := (_create_recommendation_prompt json_dumps).
Local Abbreviation generate := (generate_recommendations json_dumps md5_hexdigest replicate_run).

(** X16: the cache does not see the catalog beyond its first five products:
    after a call that returned a result without error field, a call with
    the same preferences and history and another catalog with the same
    first five products returns that result, with the products of the
    first catalog in it, and issues no call to the remote service. *)
Theorem cache_ignores_catalog_beyond_sample (self self1 : LLMService)
    (w w1 : World) (preferences browsing_history : pyval)
    (products1 products2 : list pyval) (r : RecommendationResult) :
  generate self w preferences browsing_history products1 = (Ok r, self1, w1) →
  error r = None →
  firstn 5 products1 = firstn 5 products2 →
  generate self1 w1 preferences browsing_history products2 = (Ok r, self1, w1).
Proof.
  intros Hfirst Herr Hsample.
  assert (prompt_of preferences browsing_history products2
          = prompt_of preferences browsing_history products1) as Hprompt
    by (unfold _create_recommendation_prompt; by rewrite Hsample).
  revert Hfirst. unfold generate_recommendations. rewrite Hprompt.
  destruct (cache self !! _) as [cached|] eqn:Hkey.
  - intros [= <- <- <-]. by rewrite Hkey.
  - unfold _call_llm. destruct (replicate_run _ _) as [chunks | cause].
    + destruct (_parse_recommendation_response _ products1) as [recs | e];
        [| discriminate].
      intros [= <- <- <-]. simpl. by rewrite lookup_insert_eq.
    + intros [= <- <- <-]. discriminate.
Qed.

(** X17: a call never removes or replaces an entry of the cache: what is
    cached under a key before the call is cached under it after the
    call. *)
Theorem cache_entries_are_kept (self self' : LLMService) (w w' : World)
    (preferences browsing_history : pyval) (products : list pyval)
    (res : result RecommendationResult) (key : string)
    (r : RecommendationResult) :
  generate self w preferences browsing_history products = (res, self', w') →
  cache self !! key = Some r →
  cache self' !! key = Some r.
Proof.
  unfold generate_recommendations.
  destruct (cache self !! md5_hexdigest _) as [cached|] eqn:Hkey;
    [by intros [= <- <- <-] |].
  destruct (_call_llm _ _ _ _) as [[raw | e] w1]; [| by intros [= <- <- <-]].
  destruct (_parse_recommendation_response _ _) as [recs | e];
    [| by intros [= <- <- <-]].
  intros [= <- <- <-] Hr. simpl.
  rewrite lookup_insert_ne; [done |]. intros <-. congruence.
Qed.

(** X18: every entry of the cache was paid for by a call to the remote
    service: on a service object that was created empty and used through
    [generate_recommendations] only, the cache has at most as many entries
    as calls were issued. *)
Theorem cache_size_bounded_by_calls (self : LLMService) (w : World) :
  reachable json_dumps md5_hexdigest replicate_run self w →
  (size (cache self) ≤ length (issued w))%nat.
Proof.
  induction 1 as [w | self w P H C res self' w' _ IH Hcall].
  - simpl. rewrite map_size_empty. lia.
  - revert Hcall. unfold generate_recommendations.
    destruct (cache self !! _) as [cached|] eqn:Hkey;
      [by intros [= <- <- <-] |].
    unfold _call_llm. destruct (replicate_run _ _) as [chunks | cause].
    + destruct (_parse_recommendation_response _ _) as [recs | e];
        intros [= <- <- <-]; simpl; rewrite length_app; simpl; [| lia].
      rewrite map_size_insert_None by done. lia.
    + intros [= <- <- <-]. simpl. rewrite length_app. simpl. lia.
Qed.

(** X20: [strip] removes nothing from the prompt, whatever the serializer
    returns: the prompt is the text as it was put together, it starts with
    the line of the preferences and ends with the example of the format. *)
Theorem prompt_is_not_stripped (preferences browsing_history : pyval)
    (products : list pyval) :
  prompt_of preferences browsing_history products
  = ("User Preferences:" ++ nl ++ json_dumps preferences ++ nl ++ nl ++
     "Browsing History:" ++ nl ++ json_dumps browsing_history ++ nl ++ nl ++
     "Available Products (sample):" ++ nl ++
     json_dumps (PList (firstn 5 products)) ++ nl ++ nl ++
     "Please recommend between 3 to 5 products that best match these preferences and browsing history. " ++
     "For each recommendation, provide the product ID, a brief explanation, and a confidence score (1-10). " ++
     "Output only valid JSON in the following format:" ++ nl ++
     dq "[{'id': 'prodXYZ', 'explanation': 'Because...', 'confidence_score': 8}, ...]")%string.
Proof.
  unfold _create_recommendation_prompt, strip.
  assert (rstrip (dq "[{'id': 'prodXYZ', 'explanation': 'Because...', 'confidence_score': 8}, ...]")
          = dq "[{'id': 'prodXYZ', 'explanation': 'Because...', 'confidence_score': 8}, ...]" ∧
          dq "[{'id': 'prodXYZ', 'explanation': 'Because...', 'confidence_score': 8}, ...]"
          ≠ EmptyString) as Hend by (split; by vm_compute).
  revert Hend.
  generalize (dq "[{'id': 'prodXYZ', 'explanation': 'Because...', 'confidence_score': 8}, ...]").
  generalize (json_dumps preferences) (json_dumps browsing_history)
    (json_dumps (PList (firstn 5 products))).
  intros text1 text2 text3 tail Hend.
  rewrite TextFacts.lstrip_app by reflexivity.
  eapply proj1. repeat apply TextFacts.rstrip_keeps_end. exact Hend.
Qed.

End WithEnvironment.

(** X19: the chunks in which the answer of the model arrives do not
    matter: two remote services whose chunks make up the same text lead to
    the same result, the same cache and the same calls. *)
Theorem chunking_does_not_matter
    (json_dumps : pyval → string) (md5_hexdigest : string → string)
    (run1 run2 : list run_input → run_input → stream_outcome)
    (self : LLMService) (w : World) (preferences browsing_history : pyval)
    (products : list pyval) (chunks1 chunks2 : list string) :
  run1 (issued w)
    (input_data
       (_create_recommendation_prompt json_dumps preferences browsing_history
          products) 512) = Chunks chunks1 →
  run2 (issued w)
    (input_data
       (_create_recommendation_prompt json_dumps preferences browsing_history
          products) 512) = Chunks chunks2 →
  fold_right String.append EmptyString chunks1
    = fold_right String.append EmptyString chunks2 →
  generate_recommendations json_dumps md5_hexdigest run1 self w
    preferences browsing_history products
  = generate_recommendations json_dumps md5_hexdigest run2 self w
      preferences browsing_history products.
Proof.
  intros H1 H2 Hsame. unfold generate_recommendations, _call_llm.
  rewrite H1, H2, !TextFacts.fold_left_append, Hsame. done.
Qed.

Lemma cache_ignores_catalog_beyond_sample_witness :
  generate_recommendations Samples.kind_dumps Samples.checksum
    Samples.answer_sixth Samples.sixth_service Samples.sixth_call
    Samples.sample_preferences Samples.sample_history Samples.catalog_b
  = (Ok Samples.sixth_result, Samples.sixth_service, Samples.sixth_call).
Proof.
  apply (cache_ignores_catalog_beyond_sample Samples.kind_dumps
           Samples.checksum Samples.answer_sixth __init__ Samples.sixth_service
           Samples.no_calls Samples.sixth_call Samples.sample_preferences
           Samples.sample_history Samples.catalog_a Samples.catalog_b).
  - vm_compute. reflexivity.
  - reflexivity.
  - reflexivity.
Defined.

Lemma cache_entries_are_kept_witness :
  cache Samples.sixth_service !! Samples.checksum Samples.sixth_prompt
    = Some Samples.sixth_result.
Proof.
  apply (cache_entries_are_kept Samples.kind_dumps Samples.checksum
           Samples.answer_sixth Samples.sixth_service Samples.sixth_service
           Samples.sixth_call Samples.sixth_call Samples.sample_preferences
           Samples.sample_history Samples.catalog_b
           (Ok Samples.sixth_result)).
  - vm_compute. reflexivity.
  - vm_compute. reflexivity.
Defined.

Lemma cache_size_bounded_by_calls_witness :
  (size (cache Samples.warm_service) ≤ length (issued Samples.one_call))%nat.
Proof.
  apply (cache_size_bounded_by_calls Samples.kind_dumps Samples.checksum
           Samples.answer_once).
  apply (reach_call _ _ _ __init__ Samples.no_calls Samples.sample_preferences
           Samples.sample_history Samples.sample_products
           (Ok Samples.sample_result)).
  - apply reach_init.
  - vm_compute. reflexivity.
Defined.

Lemma chunking_does_not_matter_witness :
  generate_recommendations Samples.kind_dumps Samples.checksum
    Samples.answer_once __init__ Samples.no_calls Samples.sample_preferences
    Samples.sample_history Samples.sample_products
  = generate_recommendations Samples.kind_dumps Samples.checksum
      Samples.answer_in_three __init__ Samples.no_calls
      Samples.sample_preferences Samples.sample_history Samples.sample_products.
Proof.
  eapply chunking_does_not_matter.
  - reflexivity.
  - reflexivity.
  - vm_compute. reflexivity.
Defined.

End PipelineExtras.

(** ** The outcomes of a call on a malformed answer *)

Module OutcomeExtras.
Import Py LLMService.
Local Open Scope list_scope.

Lemma malformed_output_is_zero_result_witness :
  (generate_recommendations Samples.kind_dumps Samples.checksum
     (λ _ _, Chunks ["I have no "%string; "suggestion."%string])
     __init__ Samples.no_calls Samples.sample_preferences
     Samples.sample_history Samples.sample_products).1.1
  = Ok {| recommendations := []; count := 0; error := None |}.
Proof.
  apply (PipelineProps.malformed_output_is_zero_result Samples.kind_dumps
           Samples.checksum
           (λ _ _, Chunks ["I have no "%string; "suggestion."%string])
           __init__ Samples.no_calls Samples.sample_preferences
           Samples.sample_history Samples.sample_products
           ["I have no "%string; "suggestion."%string]).
  - apply lookup_empty.
  - reflexivity.
  - left. reflexivity.
Defined.

Lemma parser_exception_reaches_caller_witness :
  generate_recommendations Samples.kind_dumps Samples.checksum
    Samples.answer_number __init__ Samples.no_calls Samples.sample_preferences
    Samples.sample_history Samples.sample_products
  = (Raise AttributeError, __init__,
     {| issued := issued Samples.no_calls ++
          [input_data
             (_create_recommendation_prompt Samples.kind_dumps
                Samples.sample_preferences Samples.sample_history
                Samples.sample_products) 512] |}).
Proof.
  apply (ParserProps.parser_exception_reaches_caller Samples.kind_dumps
           Samples.checksum Samples.answer_number __init__ Samples.no_calls
           Samples.sample_preferences Samples.sample_history
           Samples.sample_products ["[1]"%string] AttributeError).
  - apply lookup_empty.
  - reflexivity.
  - reflexivity.
Defined.

Lemma parsed_products_in_catalog_witness :
  Forall (λ r, product r ∈ [Samples.prod001; Samples.prod002])
    Samples.reversed_recommendations.
Proof.
  apply Forall_forall.
  apply (ParserProps.parsed_products_in_catalog Samples.reversed_text
           [Samples.prod001; Samples.prod002] Samples.reversed_recommendations).
  vm_compute. reflexivity.
Defined.

End OutcomeExtras.
